(** * EchoCheck: the Express server, the client actions and the EF evaluator

    A shallow embedding of [server/index.js] (upload, check-file,
    generate-pdf and cleanup handlers with the multer configuration and
    the error middleware), of the two client actions that guard it
    ([ActionButtons.handleGeneratePdf], [FileUploader.onDrop]) and of the
    consistency rules applied to the three extracted EF values.

    The file system is a finite set of existing absolute paths, external
    Python tasks are an oracle of the environment, and every handler is a
    computation in a small state-and-exception monad that records what it
    spawns, removes and answers. *)

From Stdlib Require Import ZArith String Ascii List Bool Lia DecimalString.
From stdpp Require Import gmap strings.
Import ListNotations.
Local Open Scope string_scope.
Local Open Scope Z_scope.

(** ** JavaScript values and string primitives *)

Module Js.

(** A parsed JSON value, as [express.json()] hands it to a handler.
    Numbers are kept to the integers; no claim depends on fractions. *)
Local Unset Elimination Schemes.
Inductive Json : Type :=
| JNull
| JBool (b : bool)
| JNum (n : Z)
| JStr (s : string)
| JArr (items : list Json)
| JObj (fields : list (string * Json)).
Local Set Elimination Schemes.

(** [!v] is true exactly on the falsy values; a missing property
    ([undefined]) is [None]. *)
Definition truthy (v : option Json) : bool :=
  match v with
  | None => false
  | Some JNull => false
  | Some (JBool b) => b
  | Some (JNum n) => negb (n =? 0)
  | Some (JStr s) => negb (String.eqb s "")
  | Some (JArr _) => true
  | Some (JObj _) => true
  end.

(** Property read on an object literal: first binding of the key. *)
Fixpoint get (k : string) (fields : list (string * Json)) : option Json :=
  match fields with
  | [] => None
  | (k', v) :: rest => if String.eqb k k' then Some v else get k rest
  end.

Definition lower_char (c : ascii) : ascii :=
  let n := nat_of_ascii c in
  if (Nat.leb 65 n && Nat.leb n 90)%bool then ascii_of_nat (n + 32) else c.

(** [String.prototype.toLowerCase], on the ASCII letters. *)
Fixpoint toLowerCase (s : string) : string :=
  match s with
  | EmptyString => EmptyString
  | String c rest => String (lower_char c) (toLowerCase rest)
  end.

Fixpoint drop (n : nat) (s : string) : string :=
  match n, s with
  | O, _ => s
  | S n', String _ rest => drop n' rest
  | S _, EmptyString => EmptyString
  end.

(** [s.replace(pat, rep)] with a string pattern: only the first
    occurrence is replaced, and [s] is returned as it is when there is
    none. *)
Fixpoint replace (pat rep s : string) : string :=
  if String.prefix pat s then rep +:+ drop (String.length pat) s
  else match s with
       | EmptyString => EmptyString
       | String c rest => String c (replace pat rep rest)
       end.

Fixpoint rev (s : string) : string :=
  match s with
  | EmptyString => EmptyString
  | String c rest => rev rest +:+ String c EmptyString
  end.

Definition is_space (c : ascii) : bool :=
  let n := nat_of_ascii c in
  (Nat.eqb n 32 || (Nat.leb 9 n && Nat.leb n 13))%bool.

Fixpoint trimStart (s : string) : string :=
  match s with
  | EmptyString => EmptyString
  | String c rest => if is_space c then trimStart rest else s
  end.

(** [s.trim()], on the ASCII white space. *)
Definition trim (s : string) : string := rev (trimStart (rev (trimStart s))).

(** [s.endsWith(suffix)]. *)
Definition endsWith (suffix s : string) : bool :=
  let n := String.length s in
  let m := String.length suffix in
  (Nat.leb m n && String.eqb (drop (n - m) s) suffix)%bool.

End Js.

(** ** Node's [path] module (POSIX flavour) *)

Module Path.

Definition slash : ascii := "/"%char.
Definition dot : ascii := "."%char.

(** [s.split('/')]: empty segments are kept. *)
Fixpoint split (s : string) : list string :=
  match s with
  | EmptyString => [EmptyString]
  | String c rest =>
      if Ascii.eqb c slash then EmptyString :: split rest
      else match split rest with
           | [] => [String c EmptyString]
           | seg :: segs => String c seg :: segs
           end
  end.

Fixpoint concat_with (sep : string) (segs : list string) : string :=
  match segs with
  | [] => ""
  | [seg] => seg
  | seg :: rest => seg +:+ sep +:+ concat_with sep rest
  end.

(** [normalizeString]: resolves [.] and [..] segments. [stack] holds the
    segments kept so far, innermost first. Above the root, [..] is kept
    only for a relative path ([allowAboveRoot]). *)
Fixpoint resolve (allowAboveRoot : bool) (stack segs : list string) : list string :=
  match segs with
  | [] => rev stack
  | seg :: rest =>
      if (String.eqb seg "" || String.eqb seg ".")%bool then
        resolve allowAboveRoot stack rest
      else if String.eqb seg ".." then
        match stack with
        | top :: below =>
            if String.eqb top ".." then resolve allowAboveRoot (".." :: stack) rest
            else resolve allowAboveRoot below rest
        | [] =>
            if allowAboveRoot then resolve allowAboveRoot [".."] rest
            else resolve allowAboveRoot [] rest
        end
      else resolve allowAboveRoot (seg :: stack) rest
  end.

Definition isAbsolute (p : string) : bool := String.prefix "/" p.

Definition normalize (p : string) : string :=
  if String.eqb p "" then "."
  else
    let absolute := isAbsolute p in
    let trailing := Js.endsWith "/" p in
    let body := concat_with "/" (resolve (negb absolute) [] (split p)) in
    if String.eqb body "" then
      (if absolute then "/" else if trailing then "./" else ".")
    else
      let body := if trailing then body +:+ "/" else body in
      if absolute then "/" +:+ body else body.

(** [path.join(...parts)]: the non-empty parts joined by [/], then
    normalized. *)
Definition join (parts : list string) : string :=
  match filter (fun s => negb (String.eqb s "")) parts with
  | [] => "."
  | kept => normalize (concat_with "/" kept)
  end.

(** Last non-empty segment: the path without its directories and
    without trailing slashes. *)
Definition basename (p : string) : string :=
  match filter (fun s => negb (String.eqb s "")) (rev (split p)) with
  | [] => ""
  | seg :: _ => seg
  end.

(** Position of the last [.] of [s], if any. *)
Fixpoint last_dot (s : string) : option nat :=
  match s with
  | EmptyString => None
  | String c rest =>
      match last_dot rest with
      | Some i => Some (S i)
      | None => if Ascii.eqb c dot then Some O else None
      end
  end.

(** [path.extname]: from the last [.] of the base name to its end; empty
    when there is no dot, when the only dot leads the name, and for
    [..]. *)
Definition extname (p : string) : string :=
  let b := basename p in
  match last_dot b with
  | None => ""
  | Some O => ""
  | Some i => if String.eqb b ".." then "" else Js.drop i b
  end.

(** [p] names [dir] itself or something below it. *)
Definition within (dir p : string) : bool :=
  (String.eqb p dir || String.prefix (dir +:+ "/") p)%bool.

End Path.

(** ** The server: [server/index.js] *)

Module Server.

(** The three Python helpers the server spawns; each stands for
    [python <__dirname>/../python/<script_file>]. *)
Inductive Script : Type := EfChecker | ConvertRtfToDocx | GeneratePdf.

Definition script_file (s : Script) : string :=
  match s with
  | EfChecker => "ef_checker.py"
  | ConvertRtfToDocx => "convert_rtf_to_docx.py"
  | GeneratePdf => "generate_pdf.py"
  end.

(** What the ['close'] listener of a child process gets to see: the exit
    code ([None] when a signal ended it, JavaScript's [null]) and what was
    collected from its two streams. *)
Record Exit : Type := { code : option Z; stdout : string; stderr : string }.

(** [code !== 0] is the failure test of every listener. *)
Definition failed (e : Exit) : bool :=
  match code e with
  | Some 0 => false
  | _ => true
  end.

(** What is outside the program: where it is installed, what a spawned
    task does to the files and how (and whether) it ends, and the JSON
    reader. *)
Record Env : Type := {
  dirname : string;
  run : Script -> list string -> gset string -> gset string * option Exit;
  JSON_parse : string -> option Js.Json
}.

Definition uploadsDir (env : Env) : string := Path.join [dirname env; "uploads"].

Inductive Body : Type :=
| BJson (v : Js.Json)
| BFile (path name : string).

Inductive Event : Type :=
| Spawned (s : Script) (args : list string)
| Closed (s : Script) (c : option Z)
| Stored (path : string)
| Removed (path : string)
| Responded (status : Z) (body : Body)
| Alerted (msg : string)
| Reported (msg : string).

(** [files]: every path that exists (files and directories alike);
    [events]: what happened, oldest first. *)
Record World : Type := { files : gset string; events : list Event }.

Inductive Failure : Type :=
| MulterError (code : string)
| Error (message : string).

(** A computation ends with a value, with a thrown error, or never
    (it waits for a ['close'] that does not come). *)
Inductive Outcome (A : Type) : Type :=
| Done (a : A)
| Thrown (e : Failure)
| Pending.
Arguments Done {A} a.
Arguments Thrown {A} e.
Arguments Pending {A}.

Definition M (A : Type) : Type := World -> Outcome A * World.

Definition ret {A} (a : A) : M A := fun w => (Done a, w).

Definition bind {A B} (m : M A) (k : A -> M B) : M B :=
  fun w =>
    match m w with
    | (Done a, w') => k a w'
    | (Thrown e, w') => (Thrown e, w')
    | (Pending, w') => (Pending, w')
    end.

Definition throw {A} (e : Failure) : M A := fun w => (Thrown e, w).

(** [try { body } catch (error) { handler(error) }]. *)
Definition try_catch {A} (body : M A) (handler : Failure -> M A) : M A :=
  fun w =>
    match body w with
    | (Thrown e, w') => handler e w'
    | r => r
    end.

Notation "x <- c ; k" := (bind c (fun x => k))
  (at level 20, c at level 100, k at level 200, only parsing).
Notation "c ;; k" := (bind c (fun _ => k))
  (at level 100, k at level 200, right associativity, only parsing).

Definition emit (e : Event) : M unit :=
  fun w => (Done tt, {| files := files w; events := events w ++ [e] |}).

(** [fs.pathExists(p)]. *)
Definition pathExists (p : string) : M bool :=
  fun w => (Done (bool_decide (p ∈ files w)), w).

(** What [fs.remove(p)] leaves: [p] goes, with everything below it. *)
Definition without (p : string) (fs : gset string) : gset string :=
  filter (fun q => Path.within p q = false) fs.

Definition remove (p : string) : M unit :=
  fun w => (Done tt, {| files := without p (files w); events := events w ++ [Removed p] |}).

Definition respond (status : Z) (body : Body) : M unit := emit (Responded status body).

Definition error_body (msg : string) : Body :=
  BJson (Js.JObj [("error", Js.JStr msg)]).

(** [spawn('python', [script, ...args])] followed by its ['close']
    listener; [args] are the arguments after the script. The task acts on
    the files; the listener runs with the exit record if the task ever
    ends. *)
Definition spawn (env : Env) (s : Script) (args : list string) : M Exit :=
  fun w =>
    let '(fs', r) := run env s args (files w) in
    match r with
    | Some e =>
        (Done e, {| files := fs'; events := events w ++ [Spawned s args; Closed s (code e)] |})
    | None =>
        (Pending, {| files := fs'; events := events w ++ [Spawned s args] |})
    end.

(** [path.join(uploadsDir, filename)] on a request property: a value
    that is not a string makes [path.join] throw a [TypeError]. *)
Definition join_upload (env : Env) (filename : option Js.Json) : M string :=
  match filename with
  | Some (Js.JStr name) => ret (Path.join [uploadsDir env; name])
  | _ => throw (Error "ERR_INVALID_ARG_TYPE")
  end.

(** *** [POST /check-file] *)

Definition check_file (env : Env) (body : list (string * Js.Json)) : M unit :=
  try_catch
    (let filename := Js.get "filename" body in
     if negb (Js.truthy filename) then
       respond 400 (error_body "Filename is required")
     else
       filePath <- join_upload env filename;
       found <- pathExists filePath;
       if negb found then respond 404 (error_body "File not found")
       else
         p <- spawn env EfChecker [filePath];
         if failed p then
           respond 500 (BJson (Js.JObj [("error", Js.JStr "EF check failed");
                                        ("details", Js.JStr (stderr p))]))
         else
           match JSON_parse env (Js.trim (stdout p)) with
           | Some result => respond 200 (BJson result)
           | None =>
               respond 500 (BJson (Js.JObj [("error", Js.JStr "Failed to parse EF check results");
                                            ("details", Js.JStr (stdout p))]))
           end)
    (fun _ => respond 500 (error_body "EF check failed")).

(** *** [POST /generate-pdf] *)

Definition generate_pdf (env : Env) (body : list (string * Js.Json)) : M unit :=
  try_catch
    (let filename := Js.get "filename" body in
     if negb (Js.truthy filename) then
       respond 400 (error_body "Filename is required")
     else
       rtfPath <- join_upload env filename;
       found <- pathExists rtfPath;
       if negb found then respond 404 (error_body "File not found")
       else
         let docxPath := Js.replace ".rtf" ".docx" rtfPath in
         c <- spawn env ConvertRtfToDocx [rtfPath; docxPath];
         if failed c then
           respond 500 (error_body "RTF to DOCX conversion failed")
         else
           let pdfPath := Js.replace ".docx" ".pdf" docxPath in
           p <- spawn env GeneratePdf [docxPath; pdfPath];
           if failed p then
             respond 500 (error_body "PDF generation failed")
           else
             made <- pathExists pdfPath;
             if made then
               respond 200 (BFile pdfPath (Path.basename pdfPath));;
               remove docxPath;;
               remove pdfPath
             else respond 500 (error_body "PDF file was not created"))
    (fun _ => respond 500 (error_body "PDF generation failed")).

(** *** [POST /cleanup] *)

Definition cleanup (env : Env) (body : list (string * Js.Json)) : M unit :=
  try_catch
    (let filename := Js.get "filename" body in
     if negb (Js.truthy filename) then
       respond 400 (error_body "Filename is required")
     else
       filePath <- join_upload env filename;
       found <- pathExists filePath;
       if found then
         remove filePath;;
         respond 200 (BJson (Js.JObj [("success", Js.JBool true);
                                      ("message", Js.JStr "File cleaned up successfully")]))
       else respond 404 (error_body "File not found"))
    (fun _ => respond 500 (error_body "Cleanup failed")).

(** *** The multer configuration and [POST /upload] *)

(** One file part of a multipart request, as busboy announces it. *)
Record UploadedFile : Type := {
  fieldname : string;
  originalname : string;
  mimetype : string;
  size : Z
}.

(** A multipart request carries at most one file part here; [stamp] is
    what [Date.now() + '-' + Math.round(Math.random() * 1E9)] yields
    while the request is served. *)
Record UploadRequest : Type := { part : option UploadedFile; stamp : string }.

(** [req.file] once multer has stored the part. *)
Record StoredFile : Type := {
  filename : string;
  originalName : string;
  storedSize : Z;
  storedPath : string
}.

(** [limits.fileSize]. *)
Definition fileSize : Z := 10 * 1024 * 1024.

(** [fileFilter]: [cb(null, true)] or [cb(new Error(...), false)]. *)
Definition fileFilter (file : UploadedFile) : M bool :=
  if (String.eqb (mimetype file) "application/rtf"
      || String.eqb (Js.toLowerCase (Path.extname (originalname file))) ".rtf")%bool
  then ret true
  else throw (Error "Only RTF files are allowed").

(** [storage.filename]. *)
Definition storage_filename (file : UploadedFile) (stamp : string) : string :=
  fieldname file +:+ "-" +:+ stamp +:+ Path.extname (originalname file).

(** The disk storage writes the stream to its destination. *)
Definition store (p : string) : M unit :=
  fun w => (Done tt, {| files := {[p]} ∪ files w; events := events w ++ [Stored p] |}).

(** [fs.unlink(p)]. *)
Definition unlink (p : string) : M unit :=
  fun w => (Done tt, {| files := files w ∖ {[p]}; events := events w ++ [Removed p] |}).

(** [upload.single(field)]: multer refuses a part in another field, asks
    the filter before it reads the file, streams an accepted part to
    [uploadsDir], and on a stream longer than [limits.fileSize] aborts
    with [LIMIT_FILE_SIZE] and unlinks what it wrote. *)
Definition single (env : Env) (field : string) (req : UploadRequest) : M (option StoredFile) :=
  match part req with
  | None => ret None
  | Some file =>
      if negb (String.eqb (fieldname file) field) then
        throw (MulterError "LIMIT_UNEXPECTED_FILE")
      else
        accepted <- fileFilter file;
        if negb accepted then ret None
        else
          let name := storage_filename file (stamp req) in
          let dest := Path.join [uploadsDir env; name] in
          store dest;;
          if fileSize <? size file then
            unlink dest;;
            throw (MulterError "LIMIT_FILE_SIZE")
          else
            ret (Some {| filename := name; originalName := originalname file;
                         storedSize := size file; storedPath := dest |})
  end.

(** The route handler proper. *)
Definition upload_handler (file : option StoredFile) : M unit :=
  try_catch
    (match file with
     | None => respond 400 (error_body "No file uploaded")
     | Some f =>
         respond 200 (BJson (Js.JObj [("success", Js.JBool true);
                                      ("message", Js.JStr "File uploaded successfully");
                                      ("filename", Js.JStr (filename f));
                                      ("originalName", Js.JStr (originalName f));
                                      ("size", Js.JNum (storedSize f))]))
     end)
    (fun _ => respond 500 (error_body "File upload failed")).

(** The error-handling middleware, reached by [next(error)]. *)
Definition error_middleware (e : Failure) : M unit :=
  match e with
  | MulterError c =>
      if String.eqb c "LIMIT_FILE_SIZE" then respond 400 (error_body "File too large")
      else respond 500 (error_body "Internal server error")
  | Error _ => respond 500 (error_body "Internal server error")
  end.

(** [app.post('/upload', upload.single('rtfFile'), handler)]. *)
Definition upload (env : Env) (req : UploadRequest) : M unit :=
  try_catch (file <- single env "rtfFile" req; upload_handler file) error_middleware.

(** Running a handler on a quiet server with the files [fs]. *)
Definition serve (h : M unit) (fs : gset string) : World :=
  snd (h {| files := fs; events := [] |}).

(** The answer a run gave, if it gave one. *)
Fixpoint response (evs : list Event) : option (Z * Body) :=
  match evs with
  | [] => None
  | Responded status body :: _ => Some (status, body)
  | _ :: rest => response rest
  end.

Definition spawned (evs : list Event) : list Script :=
  omap (fun e => match e with Spawned s _ => Some s | _ => None end) evs.

End Server.

(** ** The client actions that reach the server *)

Module Client.
Import Server.

(** [results.status], [undefined] when there is none. *)
Definition status (results : Js.Json) : option Js.Json :=
  match results with
  | Js.JObj fields => Js.get "status" fields
  | _ => None
  end.

(** [results.status === 'good']. *)
Definition is_good (results : Js.Json) : bool :=
  match status results with
  | Some (Js.JStr s) => String.eqb s "good"
  | _ => false
  end.

(** [ActionButtons.handleGeneratePdf]: the request goes out only for a
    good result. What the component does with the answer (download link,
    error banner) stays in the browser. *)
Definition handleGeneratePdf (env : Env) (results : Js.Json) (filename : string) : M unit :=
  if negb (is_good results) then
    emit (Alerted "PDF generation is only available when EF values are consistent.")
  else
    generate_pdf env [("filename", Js.JStr filename)].

(** A browser [File]. *)
Record File : Type := { name : string; type : string; bytes : Z }.

(** [FileUploader.onDrop]. *)
Definition onDrop (env : Env) (acceptedFiles : list File) (stamp : string) : M unit :=
  match acceptedFiles with
  | [] => emit (Reported "No file selected")
  | file :: _ =>
      if negb (Js.endsWith ".rtf" (Js.toLowerCase (name file))) then
        emit (Reported "Please select an RTF file")
      else if 10 * 1024 * 1024 <? bytes file then
        emit (Reported "File size must be less than 10MB")
      else
        upload env {| part := Some {| fieldname := "rtfFile"; originalname := name file;
                                      mimetype := type file; size := bytes file |};
                      stamp := stamp |}
  end.

End Client.

(** ** The consistency evaluator *)

Module Evaluator.

(** Modelled from the spec: the extraction engine and the evaluator live
    in [python/ef_checker.py], which the server spawns and which is not
    among the sources at hand. The data model below is the one of the
    specification: the three locations of an EF value. *)
Inductive Location : Type := Conclusion | Body | CalculationsTable.

(** Modelled from the spec: the normalized value of a match, a whole
    percentage or the explicit Missing marker. *)
Inductive Value : Type := Missing | Percent (n : Z).

(** Modelled from the spec: one located EF candidate. *)
Record ExtractedValue : Type := {
  location : Location;
  raw : string;
  value : Value;
  ambiguous : bool
}.

(** Modelled from the spec: the four outcomes of an evaluation. *)
Inductive Status : Type := Good | Discordant | Incomplete | Error.

(** Modelled from the spec: a status with the echo of the three values. *)
Record ConsistencyResult : Type := {
  status : Status;
  values : ExtractedValue * ExtractedValue * ExtractedValue
}.

(** Modelled from the spec: the value carries the Missing marker. *)
Definition is_missing (e : ExtractedValue) : bool :=
  match value e with
  | Missing => true
  | Percent _ => false
  end.

(** Modelled from the spec: two numeric values are exactly equal. *)
Definition same (a b : ExtractedValue) : bool :=
  match value a, value b with
  | Percent x, Percent y => x =? y
  | _, _ => false
  end.

(** Modelled from the spec: the evaluator lives in [python/ef_checker.py],
    which the server spawns and which is not among the sources at hand.
    Rules 1 to 3 of the Consistency Evaluator, in their priority order:
    any of the three Missing gives Incomplete; else all three numeric
    values exactly equal gives Good; else Discordant. *)
Definition classify (conclusion body calcs : ExtractedValue) : Status :=
  if existsb is_missing [conclusion; body; calcs] then Incomplete
  else if (same conclusion body && same body calcs)%bool then Good
  else Discordant.

(** Modelled from the spec: rule 4 of the same evaluator. A structural
    error of the extraction ([None]) is propagated as Error without any
    comparison; otherwise the three values are classified and echoed. *)
Definition evaluate
  (extraction : option (ExtractedValue * ExtractedValue * ExtractedValue))
  : Status + ConsistencyResult :=
  match extraction with
  | None => inl Error
  | Some (c, b, t) => inr {| status := classify c b t; values := (c, b, t) |}
  end.

End Evaluator.

(** ** Concrete installations used to run the handlers *)

Module Scenario.
Import Server.

Definition quiet : Exit := {| code := Some 0; stdout := ""; stderr := "" |}.

Definition discordant : Js.Json :=
  Js.JObj [("status", Js.JStr "discordant");
           ("values", Js.JObj [("conclusion", Js.JStr "55%");
                               ("text", Js.JStr "55%");
                               ("calcs", Js.JStr "60%")])].

(** The checker's report is fixed; reading it back is all the JSON
    reader has to do here. *)
Definition parse (s : string) : option Js.Json :=
  if String.eqb s "discordant-report" then Some discordant else None.

Definition writes_second (args : list string) (fs : gset string) : gset string :=
  match args with
  | [_; out] => {[out]} ∪ fs
  | _ => fs
  end.

(** Every task succeeds and writes its output file. *)
Definition healthy : Env := {|
  dirname := "/srv/server";
  run := fun s args fs =>
    match s with
    | EfChecker => (fs, Some {| code := Some 0; stdout := " discordant-report "; stderr := "" |})
    | ConvertRtfToDocx => (writes_second args fs, Some quiet)
    | GeneratePdf => (writes_second args fs, Some quiet)
    end;
  JSON_parse := parse
|}.

(** The conversion to DOCX works, the PDF stage exits with status 1. *)
Definition pdf_fails : Env := {|
  dirname := "/srv/server";
  run := fun s args fs =>
    match s with
    | EfChecker => (fs, Some quiet)
    | ConvertRtfToDocx => (writes_second args fs, Some quiet)
    | GeneratePdf => (fs, Some {| code := Some 1; stdout := ""; stderr := "Word is busy" |})
    end;
  JSON_parse := parse
|}.

(** The conversion to DOCX exits with status 1. *)
Definition convert_fails : Env := {|
  dirname := "/srv/server";
  run := fun s args fs =>
    match s with
    | ConvertRtfToDocx => (fs, Some {| code := Some 1; stdout := ""; stderr := "cannot open" |})
    | _ => (fs, Some quiet)
    end;
  JSON_parse := parse
|}.

(** The checker exits with status 1 after writing [noise] to its error
    stream. *)
Definition checker_fails (noise : string) : Env := {|
  dirname := "/srv/server";
  run := fun s args fs =>
    match s with
    | EfChecker => (fs, Some {| code := Some 1; stdout := ""; stderr := noise |})
    | _ => (fs, Some quiet)
    end;
  JSON_parse := parse
|}.

Definition report : string := "rtfFile-1761465600000-42.rtf".

Definition disk : gset string :=
  {[ "/srv/server/index.js"; "/srv/server/uploads"; "/srv/server/uploads/" +:+ report ]}.

Definition named (name : string) : list (string * Js.Json) := [("filename", Js.JStr name)].

(** The [details] property of an error answer. *)
Definition details (r : option (Z * Body)) : option string :=
  match r with
  | Some (_, BJson (Js.JObj fields)) =>
      match Js.get "details" fields with
      | Some (Js.JStr s) => Some s
      | _ => None
      end
  | _ => None
  end.

(** The properties of a JSON answer. *)
Definition properties (r : option (Z * Body)) : list string :=
  match r with
  | Some (_, BJson (Js.JObj fields)) => map fst fields
  | _ => []
  end.

(** A plain-text file announced with the RTF media type. *)
Definition mislabelled : UploadRequest := {|
  part := Some {| fieldname := "rtfFile"; originalname := "notes.txt";
                  mimetype := "application/rtf"; size := 12 |};
  stamp := "1761465600000-7"
|}.

(** A text file one byte over the limit. *)
Definition oversize_text : UploadRequest := {|
  part := Some {| fieldname := "rtfFile"; originalname := "big.txt";
                  mimetype := "text/plain"; size := 10 * 1024 * 1024 + 1 |};
  stamp := "1761465600000-8"
|}.

(** A report one byte over the limit. *)
Definition oversize_report : UploadRequest := {|
  part := Some {| fieldname := "rtfFile"; originalname := "echo.rtf";
                  mimetype := "application/octet-stream"; size := 10 * 1024 * 1024 + 1 |};
  stamp := "1761465600000-9"
|}.

Fixpoint padding (n : nat) : string :=
  match n with
  | O => ""
  | S n' => String "x"%char (padding n')
  end.

End Scenario.
(** ** Reading a trace *)

Module Trace.
Import Server.

Definition is_answer (e : Event) : bool :=
  match e with
  | Responded _ _ => true
  | _ => false
  end.

(** How many times a run called [res.json] or [res.download]. *)
Definition answers (evs : list Event) : nat := length (filter is_answer evs).

(** The paths a run removed, oldest first. *)
Definition removed (evs : list Event) : list string :=
  omap (fun e => match e with Removed p => Some p | _ => None end) evs.

End Trace.

(** ** Names without directories *)

Module Names.

Fixpoint has_slash (s : string) : bool :=
  match s with
  | EmptyString => false
  | String c rest => (Ascii.eqb c Path.slash || has_slash rest)%bool
  end.

(** A single path segment that names an entry: no [/], and none of the
    empty name, [.] and [..]. *)
Definition plain (name : string) : bool :=
  (negb (has_slash name) && negb (String.eqb name "")
   && negb (String.eqb name ".") && negb (String.eqb name ".."))%bool.

(** A segment that path normalization keeps as it is. *)
Definition kept (seg : string) : Prop := seg ≠ "" /\ seg ≠ "." /\ seg ≠ "..".


End Names.

(** ** More installations and requests *)

Module Fixture.
Import Server.

(** The conversion never closes. *)
Definition hangs : Env := {|
  dirname := "/srv/server";
  run := fun s args fs =>
    match s with
    | ConvertRtfToDocx => (fs, None)
    | _ => (fs, Some Scenario.quiet)
    end;
  JSON_parse := Scenario.parse
|}.



(** A report well under the limit. *)
Definition small_report : UploadedFile :=
  {| fieldname := "rtfFile"; originalname := "echo.rtf";
     mimetype := "application/octet-stream"; size := 52000 |}.

Definition small_upload : UploadRequest :=
  {| part := Some small_report; stamp := "1761465600000-11" |}.

(** A part sent in another field. *)
Definition stray_upload : UploadRequest :=
  {| part := Some {| fieldname := "file"; originalname := "echo.rtf";
                     mimetype := "application/rtf"; size := 52000 |};
     stamp := "1761465600000-12" |}.

End Fixture.

(** ** The client actions that read the answer *)

Module Browser.
Import Server.

(** How the promise of [axios.post] settles once the server has
    answered: fulfilled for a status from 200 to 299, rejected otherwise,
    with the status and the body of the answer in both cases. *)
Inductive Settled : Type :=
| Fulfilled (status : Z) (data : Body)
| Rejected (status : Z) (data : Body).

(** [await axios.post(url, body)], with the handler of [url] applied to
    [body] as the request: the handler runs on the server's files, what
    it does is added to the trace, and the promise settles on its
    answer. Without an answer the [await] never returns. *)
Definition post (request : M unit) : M Settled :=
  fun w =>
    let served := snd (request {| files := files w; events := [] |}) in
    let w' := {| files := files served; events := events w ++ events served |} in
    match response (events served) with
    | Some (status, data) =>
        if ((200 <=? status) && (status <? 300))%bool
        then (Done (Fulfilled status data), w')
        else (Done (Rejected status data), w')
    | None => (Pending, w')
    end.

Definition decimal (n : Z) : string := NilZero.string_of_int (Z.to_int n).

(** What [+] makes of a JSON value next to a string. *)
Fixpoint to_text (v : Js.Json) : string :=
  match v with
  | Js.JNull => "null"
  | Js.JBool true => "true"
  | Js.JBool false => "false"
  | Js.JNum n => decimal n
  | Js.JStr s => s
  | Js.JArr items =>
      Path.concat_with ","
        (map (fun item => match item with Js.JNull => "" | _ => to_text item end) items)
  | Js.JObj _ => "[object Object]"
  end.

(** [error.response?.data?.error]. *)
Definition error_of (data : Body) : option Js.Json :=
  match data with
  | BJson (Js.JObj fields) => Js.get "error" fields
  | _ => None
  end.

(** The text the [catch] blocks hand to the user: the server's [error]
    when there is one, the message of the rejection otherwise. *)
Definition failure_text (prefix : string) (status : Z) (data : Body) : string :=
  match error_of data with
  | Some v =>
      if Js.truthy (Some v) then prefix +:+ to_text v
      else prefix +:+ "Request failed with status code " +:+ decimal status
  | None => prefix +:+ "Request failed with status code " +:+ decimal status
  end.

(** [if (response.data)]: a file body is not what check-file sends and
    counts as present. *)
Definition present (data : Body) : bool :=
  match data with
  | BJson v => Js.truthy (Some v)
  | BFile _ _ => true
  end.

(** [VerifyButton.handleVerify]. The value is what [onEfCheck] was called
    with, if it was; [onError] is recorded in the trace. *)
Definition handleVerify (env : Env) (filename : option string) : M (option Body) :=
  match filename with
  | None | Some EmptyString => bind (emit (Reported "No file to verify")) (fun _ => ret None)
  | Some name =>
      r <- post (check_file env [("filename", Js.JStr name)]);
      match r with
      | Fulfilled _ data =>
          if present data then ret (Some data)
          else bind (emit (Reported "No results received from server")) (fun _ => ret None)
      | Rejected status data =>
          bind (emit (Reported (failure_text "Verification failed: " status data)))
               (fun _ => ret None)
      end
  end.

(** [ActionButtons.handleCleanup]. The value tells whether the page was
    reloaded. *)
Definition handleCleanup (env : Env) (filename : string) : M bool :=
  r <- post (cleanup env [("filename", Js.JStr filename)]);
  match r with
  | Fulfilled _ _ => ret true
  | Rejected _ _ =>
      bind (emit (Alerted "Failed to clean up files. Please try again.")) (fun _ => ret false)
  end.

(** Running a client action on a quiet server with the files [fs]. *)
Definition click {A} (action : M A) (fs : gset string) : Outcome A * World :=
  action {| files := fs; events := [] |}.

End Browser.

Example join_plain :
  Path.join ["/srv/server/uploads"; "rtfFile-1-2.rtf"] = "/srv/server/uploads/rtfFile-1-2.rtf".
Proof. reflexivity. Qed.

Example join_dotdot :
  Path.join ["/srv/server/uploads"; "../index.js"] = "/srv/server/index.js".
Proof. reflexivity. Qed.

Example join_absolute_part :
  Path.join ["/srv/server/uploads"; "/etc/passwd"] = "/srv/server/uploads/etc/passwd".
Proof. reflexivity. Qed.

Example join_above_root : Path.join ["/a"; "../../../b/"] = "/b/".
Proof. reflexivity. Qed.

Example join_relative : Path.join ["a"; "../../b"] = "../b".
Proof. reflexivity. Qed.

Example extname_cases :
  map Path.extname ["report.RTF"; "a/b.c/d"; ".rtf"; ".."; "x."; "a.tar.gz"; "dir.d/f.rtf/"]
  = [".RTF"; ""; ""; ""; "."; ".gz"; ".rtf"].
Proof. reflexivity. Qed.

Example replace_first_only :
  Js.replace ".rtf" ".docx" "/u/a.rtf.rtf" = "/u/a.docx.rtf"
  /\ Js.replace ".rtf" ".docx" "/u/a.RTF" = "/u/a.RTF".
Proof. split; reflexivity. Qed.

Example lower_ext : Js.toLowerCase ".RtF" = ".rtf".
Proof. reflexivity. Qed.

(** ** Stepping through a handler *)

Import Server.

Arguments Path.join : simpl never.
Arguments Js.replace : simpl never.
Arguments Path.basename : simpl never.
Arguments Js.trim : simpl never.
Arguments Path.extname : simpl never.
Arguments Js.toLowerCase : simpl never.

(** Unfolds the monad and the primitives of the server. *)
Ltac unfold_handler :=
  unfold serve, try_catch, bind, join_upload, pathExists, respond, emit, spawn,
    remove, ret, throw in *.

Lemma truthy_string (name : string) : name ≠ "" -> Js.truthy (Some (Js.JStr name)) = true.
Proof.
  intros H. simpl. destruct (String.eqb_spec name ""); [contradiction | reflexivity].
Qed.

Lemma not_within_removed (p q : string) (fs : gset string) :
  q ∈ without p fs <-> q ∈ fs /\ Path.within p q = false.
Proof. unfold without. rewrite elem_of_filter. tauto. Qed.

Lemma removed_is_gone (p : string) (fs : gset string) : p ∉ without p fs.
Proof.
  rewrite not_within_removed. intros [_ H]. unfold Path.within in H.
  rewrite String.eqb_refl in H. discriminate.
Qed.

(** Matches a known trace against [before ++ e :: after]. *)
Ltac split_trace Hev before :=
  destruct before as [|? [|? [|? [|? [|? [|? [|? [|? ?]]]]]]]];
  simpl in Hev; simplify_eq; try reflexivity.

(** ** Stage order of a Generate run *)

(** C4. In every run of the generate-pdf handler, the PDF stage is
    spawned only after the RTF-to-DOCX stage was spawned and its process
    closed with exit status 0: the events before the spawn of the PDF
    stage are exactly that spawn and that close, and the environment did
    end the conversion with status 0. *)
Theorem pdf_stage_only_after_conversion_succeeded
  (env : Env) (body : list (string * Js.Json)) (fs : gset string)
  (before after : list Event) (args : list string) :
  events (serve (generate_pdf env body) fs)
    = (before ++ Spawned GeneratePdf args :: after)%list ->
  exists args1 e,
    before = [Spawned ConvertRtfToDocx args1; Closed ConvertRtfToDocx (Some 0)]
    /\ snd (run env ConvertRtfToDocx args1 fs) = Some e
    /\ code e = Some 0.
Proof.
  unfold generate_pdf. unfold_handler.
  destruct (Js.truthy (Js.get "filename" body)); simpl.
  2:{ intros Hev. split_trace Hev before. }
  destruct (Js.get "filename" body) as [[| | |name| |]|]; simpl;
    try solve [intros Hev; split_trace Hev before].
  case_bool_decide; simpl.
  2:{ intros Hev. split_trace Hev before. }
  destruct (run env ConvertRtfToDocx _ fs) as [fs1 [c|]] eqn:Hc; simpl.
  2:{ intros Hev. split_trace Hev before. }
  unfold failed. destruct (code c) as [[| |]|] eqn:Hcode; simpl;
    try solve [intros Hev; split_trace Hev before].
  intros Hev. eexists _, c. rewrite Hc. simpl.
  split; [|split; [reflexivity|exact Hcode]].
  destruct (run env GeneratePdf _ fs1) as [fs2 [p|]]; simpl in Hev.
  - destruct (code p) as [[| |]|]; simpl in Hev;
      try case_bool_decide; simpl in Hev; split_trace Hev before.
  - split_trace Hev before.
Qed.

(** A run in which both stages succeed: the premise holds with the
    conversion's spawn and close before the spawn of the PDF stage. *)
Lemma pdf_stage_only_after_conversion_succeeded_witness :
  events (serve (generate_pdf Scenario.healthy (Scenario.named Scenario.report)) Scenario.disk)
  = ([Spawned ConvertRtfToDocx
        ["/srv/server/uploads/rtfFile-1761465600000-42.rtf";
         "/srv/server/uploads/rtfFile-1761465600000-42.docx"];
      Closed ConvertRtfToDocx (Some 0)]
     ++ Spawned GeneratePdf
          ["/srv/server/uploads/rtfFile-1761465600000-42.docx";
           "/srv/server/uploads/rtfFile-1761465600000-42.pdf"]
     :: [Closed GeneratePdf (Some 0);
         Responded 200 (BFile "/srv/server/uploads/rtfFile-1761465600000-42.pdf"
                              "rtfFile-1761465600000-42.pdf");
         Removed "/srv/server/uploads/rtfFile-1761465600000-42.docx";
         Removed "/srv/server/uploads/rtfFile-1761465600000-42.pdf"])%list
  /\ exists args1 e,
       [Spawned ConvertRtfToDocx
          ["/srv/server/uploads/rtfFile-1761465600000-42.rtf";
           "/srv/server/uploads/rtfFile-1761465600000-42.docx"];
        Closed ConvertRtfToDocx (Some 0)]
       = [Spawned ConvertRtfToDocx args1; Closed ConvertRtfToDocx (Some 0)]
       /\ snd (run Scenario.healthy ConvertRtfToDocx args1 Scenario.disk) = Some e
       /\ code e = Some 0.
Proof.
  assert (Hev : events (serve (generate_pdf Scenario.healthy (Scenario.named Scenario.report))
                          Scenario.disk)
    = ([Spawned ConvertRtfToDocx
          ["/srv/server/uploads/rtfFile-1761465600000-42.rtf";
           "/srv/server/uploads/rtfFile-1761465600000-42.docx"];
        Closed ConvertRtfToDocx (Some 0)]
       ++ Spawned GeneratePdf
            ["/srv/server/uploads/rtfFile-1761465600000-42.docx";
             "/srv/server/uploads/rtfFile-1761465600000-42.pdf"]
       :: [Closed GeneratePdf (Some 0);
           Responded 200 (BFile "/srv/server/uploads/rtfFile-1761465600000-42.pdf"
                                "rtfFile-1761465600000-42.pdf");
           Removed "/srv/server/uploads/rtfFile-1761465600000-42.docx";
           Removed "/srv/server/uploads/rtfFile-1761465600000-42.pdf"])%list)
    by (vm_compute; reflexivity).
  split; [exact Hev|].
  exact (pdf_stage_only_after_conversion_succeeded _ _ _ _ _ _ Hev).
Defined.

(** ** The status gate of Generate *)

(** C1, as stated, fails on the server. The checker reports the stored
    report as discordant, and a generate-pdf request for the same file
    is served all the same: both conversion stages are spawned and the
    PDF is sent. *)
Lemma generate_serves_discordant_report :
  response (events (serve (check_file Scenario.healthy (Scenario.named Scenario.report))
                      Scenario.disk))
  = Some (200, BJson Scenario.discordant)
  /\ Client.is_good Scenario.discordant = false
  /\ spawned (events (serve (generate_pdf Scenario.healthy (Scenario.named Scenario.report))
                        Scenario.disk))
     = [ConvertRtfToDocx; GeneratePdf]
  /\ response (events (serve (generate_pdf Scenario.healthy (Scenario.named Scenario.report))
                         Scenario.disk))
     = Some (200, BFile "/srv/server/uploads/rtfFile-1761465600000-42.pdf"
                        "rtfFile-1761465600000-42.pdf").
Proof. repeat split; vm_compute; reflexivity. Qed.

(** C1, amended. The gate is in the client: when the result at hand does
    not have status 'good', handleGeneratePdf alerts the user and sends
    no request, so no conversion process is spawned, no file appears or
    disappears, and the server gives no answer. *)
Theorem generate_refused_in_client
  (env : Env) (results : Js.Json) (filename : string) (fs : gset string) :
  Client.is_good results = false ->
  let w := serve (Client.handleGeneratePdf env results filename) fs in
  files w = fs
  /\ spawned (events w) = []
  /\ response (events w) = None
  /\ events w = [Alerted "PDF generation is only available when EF values are consistent."].
Proof.
  intros Hbad. unfold Client.handleGeneratePdf. rewrite Hbad. simpl.
  repeat split.
Qed.

(** The discordant result of the stored report, taken to the button. *)
Lemma generate_refused_in_client_witness :
  Client.is_good Scenario.discordant = false
  /\ files (serve (Client.handleGeneratePdf Scenario.healthy Scenario.discordant Scenario.report)
              Scenario.disk) = Scenario.disk
  /\ spawned (events (serve (Client.handleGeneratePdf Scenario.healthy Scenario.discordant
                               Scenario.report) Scenario.disk)) = [].
Proof.
  split; [reflexivity|].
  pose proof (generate_refused_in_client Scenario.healthy Scenario.discordant Scenario.report
                Scenario.disk eq_refl) as (Hfiles & Hspawned & _).
  split; [exact Hfiles | exact Hspawned].
Defined.

(** ** Failure of a conversion stage *)

(** C2, at a failing input. The conversion writes the DOCX and succeeds,
    the PDF stage exits with status 1: the handler answers 500 and
    returns at once; nothing is removed and the DOCX written by this run
    stays on disk. *)
Lemma failed_pdf_stage_leaves_docx :
  response (events (serve (generate_pdf Scenario.pdf_fails (Scenario.named Scenario.report))
                      Scenario.disk))
  = Some (500, error_body "PDF generation failed")
  /\ ("/srv/server/uploads/rtfFile-1761465600000-42.docx" ∉ Scenario.disk)
  /\ files (serve (generate_pdf Scenario.pdf_fails (Scenario.named Scenario.report))
              Scenario.disk)
     = ({["/srv/server/uploads/rtfFile-1761465600000-42.docx"]} ∪ Scenario.disk)
  /\ events (serve (generate_pdf Scenario.pdf_fails (Scenario.named Scenario.report))
               Scenario.disk)
     = [Spawned ConvertRtfToDocx ["/srv/server/uploads/rtfFile-1761465600000-42.rtf";
                                  "/srv/server/uploads/rtfFile-1761465600000-42.docx"];
        Closed ConvertRtfToDocx (Some 0);
        Spawned GeneratePdf ["/srv/server/uploads/rtfFile-1761465600000-42.docx";
                             "/srv/server/uploads/rtfFile-1761465600000-42.pdf"];
        Closed GeneratePdf (Some 1);
        Responded 500 (error_body "PDF generation failed")].
Proof.
  split; [vm_compute; reflexivity|].
  split; [compute_done|].
  split; vm_compute; reflexivity.
Qed.

(** The same for every installation and every request: a Generate run
    that is answered with anything but 200 has removed nothing. *)
Lemma failed_run_removes_nothing
  (env : Env) (body : list (string * Js.Json)) (fs : gset string) (status : Z) (b : Body)
  (p : string) :
  response (events (serve (generate_pdf env body) fs)) = Some (status, b) ->
  status ≠ 200 ->
  ~ In (Removed p) (events (serve (generate_pdf env body) fs)).
Proof.
  unfold generate_pdf. unfold_handler.
  destruct (Js.truthy (Js.get "filename" body)); simpl;
    [| intros _ _ [Hp|[]]; discriminate Hp].
  destruct (Js.get "filename" body) as [[| | |name| |]|]; simpl;
    try solve [intros _ _ [Hp|[]]; discriminate Hp].
  case_bool_decide; simpl; [| intros _ _ [Hp|[]]; discriminate Hp].
  destruct (run env ConvertRtfToDocx _ fs) as [fs1 [c|]]; simpl;
    [| intros _ _ [Hp|[]]; discriminate Hp].
  destruct (failed c); simpl;
    [intros _ _ [Hp|[Hp|[Hp|[]]]]; discriminate Hp|].
  destruct (run env GeneratePdf _ fs1) as [fs2 [q|]]; simpl;
    [| intros _ _ [Hp|[Hp|[Hp|[]]]]; discriminate Hp].
  destruct (failed q); simpl;
    [intros _ _ [Hp|[Hp|[Hp|[Hp|[Hp|[]]]]]]; discriminate Hp|].
  case_bool_decide; simpl.
  - intros [= <- _] Hstatus. contradiction.
  - intros _ _ [Hp|[Hp|[Hp|[Hp|[Hp|[]]]]]]; discriminate Hp.
Qed.

(** The success path does remove what the run wrote: after the download
    the disk is as it was before the request. *)
Example successful_run_cleans_up :
  files (serve (generate_pdf Scenario.healthy (Scenario.named Scenario.report)) Scenario.disk)
  = Scenario.disk.
Proof. vm_compute. reflexivity. Qed.

(** C5, as stated, fails. When the first stage exits with status 1 the
    answer is 500 with the single property [error]; it has no [stage]
    and no [reason], and the diagnostic text of the task is not in it. *)
Lemma conversion_failure_has_no_stage_field :
  response (events (serve (generate_pdf Scenario.convert_fails (Scenario.named Scenario.report))
                      Scenario.disk))
  = Some (500, BJson (Js.JObj [("error", Js.JStr "RTF to DOCX conversion failed")]))
  /\ Scenario.properties
       (response (events (serve (generate_pdf Scenario.convert_fails
                                   (Scenario.named Scenario.report)) Scenario.disk)))
     = ["error"]
  /\ snd (run Scenario.convert_fails ConvertRtfToDocx
            ["/srv/server/uploads/rtfFile-1761465600000-42.rtf";
             "/srv/server/uploads/rtfFile-1761465600000-42.docx"] Scenario.disk)
     = Some {| code := Some 1; stdout := ""; stderr := "cannot open" |}.
Proof. repeat split; vm_compute; reflexivity. Qed.

(** C5, amended. A failed Generate run is answered with status 500 and a
    body holding one property, [error], whose fixed text tells the
    failing step: 'RTF to DOCX conversion failed' when the first stage
    does not exit with 0, 'PDF generation failed' when the second does
    not, and 'PDF file was not created' when both exit with 0 and the PDF
    is absent. The body carries nothing else. *)
Theorem generate_failure_names_step
  (env : Env) (body : list (string * Js.Json)) (name : string) (fs fs1 : gset string)
  (c : Exit) :
  let rtf := Path.join [uploadsDir env; name] in
  let docx := Js.replace ".rtf" ".docx" rtf in
  let pdf := Js.replace ".docx" ".pdf" docx in
  let answer := response (events (serve (generate_pdf env body) fs)) in
  Js.get "filename" body = Some (Js.JStr name) ->
  name ≠ "" ->
  rtf ∈ fs ->
  run env ConvertRtfToDocx [rtf; docx] fs = (fs1, Some c) ->
  (failed c = true ->
     answer = Some (500, error_body "RTF to DOCX conversion failed"))
  /\ (failed c = false ->
      forall fs2 p, run env GeneratePdf [docx; pdf] fs1 = (fs2, Some p) ->
        (failed p = true -> answer = Some (500, error_body "PDF generation failed"))
        /\ (failed p = false -> pdf ∉ fs2 ->
            answer = Some (500, error_body "PDF file was not created"))).
Proof.
  intros rtf docx pdf answer Hname Hne Hin Hc.
  subst answer. unfold generate_pdf. unfold_handler.
  rewrite Hname, (truthy_string name Hne). simpl.
  fold rtf. rewrite (bool_decide_eq_true_2 _ Hin). simpl.
  fold docx. rewrite Hc. simpl.
  split.
  - intros ->. reflexivity.
  - intros ->. simpl. intros fs2 p Hp. fold pdf. rewrite Hp. simpl. split.
    + intros ->. reflexivity.
    + intros -> Hout. simpl. rewrite (bool_decide_eq_false_2 _ Hout). reflexivity.
Qed.

(** The run in which the PDF stage exits with status 1. *)
Lemma generate_failure_names_step_witness :
  response (events (serve (generate_pdf Scenario.pdf_fails (Scenario.named Scenario.report))
                      Scenario.disk))
  = Some (500, error_body "PDF generation failed").
Proof.
  assert (Hin : Path.join [uploadsDir Scenario.pdf_fails; Scenario.report] ∈ Scenario.disk)
    by compute_done.
  assert (Hne : Scenario.report ≠ "") by discriminate.
  destruct (generate_failure_names_step Scenario.pdf_fails (Scenario.named Scenario.report)
              Scenario.report Scenario.disk _ Scenario.quiet eq_refl Hne Hin eq_refl)
    as [_ Hsecond].
  destruct (Hsecond eq_refl _ _ eq_refl) as [Hfailed _].
  exact (Hfailed eq_refl).
Defined.

(** ** Where the handlers reach on disk *)

(** C6, at a failing input. The file name of a request is joined to the
    uploads directory as it comes. With [../index.js] the cleanup handler
    resolves to the server's own source file, which is not within the
    uploads directory, finds it, removes it and answers success; the
    check handler hands the same outside path to the checker. *)
Lemma cleanup_removes_file_outside_uploads :
  uploadsDir Scenario.healthy = "/srv/server/uploads"
  /\ Path.join [uploadsDir Scenario.healthy; "../index.js"] = "/srv/server/index.js"
  /\ Path.within (uploadsDir Scenario.healthy) "/srv/server/index.js" = false
  /\ "/srv/server/index.js" ∈ Scenario.disk
  /\ events (serve (cleanup Scenario.healthy (Scenario.named "../index.js")) Scenario.disk)
     = [Removed "/srv/server/index.js";
        Responded 200 (BJson (Js.JObj [("success", Js.JBool true);
                                       ("message", Js.JStr "File cleaned up successfully")]))]
  /\ ("/srv/server/index.js"
      ∉ files (serve (cleanup Scenario.healthy (Scenario.named "../index.js")) Scenario.disk))
  /\ spawned (events (serve (check_file Scenario.healthy (Scenario.named "../index.js"))
                        Scenario.disk)) = [EfChecker]
  /\ In (Spawned EfChecker ["/srv/server/index.js"])
        (events (serve (check_file Scenario.healthy (Scenario.named "../index.js"))
                   Scenario.disk)).
Proof.
  split; [reflexivity|]. split; [reflexivity|]. split; [reflexivity|].
  split; [compute_done|]. split; [vm_compute; reflexivity|].
  split; [compute_done|]. split; [vm_compute; reflexivity|].
  vm_compute. left. reflexivity.
Qed.

(** ** Cleanup twice *)

(** C7, as stated, fails. The first cleanup of a stored report answers
    200 with [success: true]; the second one, on the disk the first one
    left, answers 404 with an [error] and no [success] property. *)
Lemma second_cleanup_is_not_found :
  response (events (serve (cleanup Scenario.healthy (Scenario.named Scenario.report))
                      Scenario.disk))
  = Some (200, BJson (Js.JObj [("success", Js.JBool true);
                               ("message", Js.JStr "File cleaned up successfully")]))
  /\ response (events (serve (cleanup Scenario.healthy (Scenario.named Scenario.report))
                         (files (serve (cleanup Scenario.healthy
                                          (Scenario.named Scenario.report)) Scenario.disk))))
     = Some (404, BJson (Js.JObj [("error", Js.JStr "File not found")])).
Proof. split; vm_compute; reflexivity. Qed.

(** C7, amended. Cleanup of a file that exists removes it and answers
    200 with [success: true]; a second cleanup of the same name finds
    nothing, answers 404 'File not found' and leaves the disk as the
    first one left it. *)
Theorem cleanup_then_cleanup
  (env : Env) (body : list (string * Js.Json)) (name : string) (fs : gset string) :
  let first := serve (cleanup env body) fs in
  let second := serve (cleanup env body) (files first) in
  Js.get "filename" body = Some (Js.JStr name) ->
  name ≠ "" ->
  Path.join [uploadsDir env; name] ∈ fs ->
  response (events first)
  = Some (200, BJson (Js.JObj [("success", Js.JBool true);
                               ("message", Js.JStr "File cleaned up successfully")]))
  /\ files first = without (Path.join [uploadsDir env; name]) fs
  /\ response (events second) = Some (404, error_body "File not found")
  /\ files second = files first.
Proof.
  intros first second Hname Hne Hin.
  assert (Hfirst : first = {| files := without (Path.join [uploadsDir env; name]) fs;
                              events := [Removed (Path.join [uploadsDir env; name]);
                                         Responded 200 (BJson (Js.JObj
                                           [("success", Js.JBool true);
                                            ("message", Js.JStr "File cleaned up successfully")]))] |}).
  { subst first. unfold cleanup. unfold_handler.
    rewrite Hname, (truthy_string name Hne). simpl.
    rewrite (bool_decide_eq_true_2 _ Hin). reflexivity. }
  assert (Hsecond : second = {| files := files first;
                                events := [Responded 404 (error_body "File not found")] |}).
  { subst second. rewrite Hfirst. unfold cleanup. unfold_handler.
    rewrite Hname, (truthy_string name Hne). simpl.
    rewrite (bool_decide_eq_false_2 _ (removed_is_gone _ fs)). reflexivity. }
  rewrite Hsecond, Hfirst. simpl. repeat split.
Qed.

(** The stored report, cleaned up twice. *)
Lemma cleanup_then_cleanup_witness :
  response (events (serve (cleanup Scenario.healthy (Scenario.named Scenario.report))
                      (files (serve (cleanup Scenario.healthy (Scenario.named Scenario.report))
                                Scenario.disk))))
  = Some (404, error_body "File not found").
Proof.
  assert (Hin : Path.join [uploadsDir Scenario.healthy; Scenario.report] ∈ Scenario.disk)
    by compute_done.
  assert (Hne : Scenario.report ≠ "") by discriminate.
  exact (proj1 (proj2 (proj2
    (cleanup_then_cleanup Scenario.healthy (Scenario.named Scenario.report) Scenario.report
       Scenario.disk eq_refl Hne Hin)))).
Defined.

(** ** Diagnostic text in error answers *)

Lemma length_padding (n : nat) : String.length (Scenario.padding n) = n.
Proof. induction n as [|n IH]; simpl; [reflexivity | now rewrite IH]. Qed.

(** The answer of check-file once the checker has closed. *)
Lemma check_file_closed
  (env : Env) (body : list (string * Js.Json)) (name : string) (fs fs1 : gset string)
  (e : Exit) :
  Js.get "filename" body = Some (Js.JStr name) ->
  name ≠ "" ->
  Path.join [uploadsDir env; name] ∈ fs ->
  run env EfChecker [Path.join [uploadsDir env; name]] fs = (fs1, Some e) ->
  response (events (serve (check_file env body) fs))
  = if failed e then
      Some (500, BJson (Js.JObj [("error", Js.JStr "EF check failed");
                                 ("details", Js.JStr (stderr e))]))
    else
      match JSON_parse env (Js.trim (stdout e)) with
      | Some result => Some (200, BJson result)
      | None =>
          Some (500, BJson (Js.JObj [("error", Js.JStr "Failed to parse EF check results");
                                     ("details", Js.JStr (stdout e))]))
      end.
Proof.
  intros Hname Hne Hin Hrun. unfold check_file. unfold_handler.
  rewrite Hname, (truthy_string name Hne). simpl.
  rewrite (bool_decide_eq_true_2 _ Hin). simpl. rewrite Hrun. simpl.
  destruct (failed e); simpl; [reflexivity|].
  destruct (JSON_parse env (Js.trim (stdout e))); reflexivity.
Qed.

(** C9, as stated, fails: no size bounds the [details] of the error
    answers of check-file. Whatever bound is proposed, a checker that
    writes more than that to its error stream and exits with status 1
    gets all of it returned. *)
Lemma check_failure_details_have_no_bound :
  ~ exists bound : nat, forall noise : string,
      match Scenario.details
              (response (events (serve (check_file (Scenario.checker_fails noise)
                                          (Scenario.named Scenario.report)) Scenario.disk)))
      with
      | Some text => (String.length text <= bound)%nat
      | None => True
      end.
Proof.
  intros [bound Hbound].
  specialize (Hbound (Scenario.padding (S bound))).
  rewrite (check_file_closed (Scenario.checker_fails (Scenario.padding (S bound)))
             (Scenario.named Scenario.report) Scenario.report Scenario.disk Scenario.disk
             {| code := Some 1; stdout := ""; stderr := Scenario.padding (S bound) |})
    in Hbound; [| reflexivity | discriminate | compute_done | reflexivity].
  cbn [failed code Scenario.details Js.get String.eqb Ascii.eqb Bool.eqb stderr] in Hbound.
  simpl in Hbound. rewrite length_padding in Hbound. lia.
Qed.

(** C9, amended. The error answers of check-file that carry output of
    the checker carry it whole: when the checker does not exit with 0,
    [details] is everything it wrote to its error stream; when it exits
    with 0 and its output is not JSON, [details] is everything it wrote
    to its output stream. *)
Theorem check_failure_returns_output_verbatim
  (env : Env) (body : list (string * Js.Json)) (name : string) (fs fs1 : gset string)
  (e : Exit) :
  let answer := response (events (serve (check_file env body) fs)) in
  Js.get "filename" body = Some (Js.JStr name) ->
  name ≠ "" ->
  Path.join [uploadsDir env; name] ∈ fs ->
  run env EfChecker [Path.join [uploadsDir env; name]] fs = (fs1, Some e) ->
  (failed e = true ->
     answer = Some (500, BJson (Js.JObj [("error", Js.JStr "EF check failed");
                                         ("details", Js.JStr (stderr e))])))
  /\ (failed e = false -> JSON_parse env (Js.trim (stdout e)) = None ->
      answer = Some (500, BJson (Js.JObj [("error", Js.JStr "Failed to parse EF check results");
                                          ("details", Js.JStr (stdout e))]))).
Proof.
  intros answer Hname Hne Hin Hrun. subst answer.
  rewrite (check_file_closed env body name fs fs1 e Hname Hne Hin Hrun).
  split.
  - intros ->. reflexivity.
  - intros -> ->. reflexivity.
Qed.

(** A checker that dies with a traceback. *)
Lemma check_failure_returns_output_verbatim_witness :
  response (events (serve (check_file (Scenario.checker_fails "Traceback: pywintypes.com_error")
                             (Scenario.named Scenario.report)) Scenario.disk))
  = Some (500, BJson (Js.JObj [("error", Js.JStr "EF check failed");
                               ("details", Js.JStr "Traceback: pywintypes.com_error")])).
Proof.
  assert (Hin : Path.join [uploadsDir (Scenario.checker_fails "Traceback: pywintypes.com_error");
                           Scenario.report] ∈ Scenario.disk) by compute_done.
  assert (Hne : Scenario.report ≠ "") by discriminate.
  exact (proj1 (check_failure_returns_output_verbatim
                  (Scenario.checker_fails "Traceback: pywintypes.com_error")
                  (Scenario.named Scenario.report) Scenario.report Scenario.disk Scenario.disk
                  {| code := Some 1; stdout := ""; stderr := "Traceback: pywintypes.com_error" |}
                  eq_refl Hne Hin eq_refl) eq_refl).
Defined.

(** ** What an upload must look like *)

(** C8, as stated, fails. A file named [notes.txt], whose extension is
    not the report type, is accepted when its part is announced as
    [application/rtf]: it is stored, the upload is answered with success,
    and a check on the stored name runs the checker on it. *)
Lemma mislabelled_text_file_is_stored_and_checked :
  Path.extname "notes.txt" = ".txt"
  /\ events (serve (upload Scenario.healthy Scenario.mislabelled) Scenario.disk)
     = [Stored "/srv/server/uploads/rtfFile-1761465600000-7.txt";
        Responded 200 (BJson (Js.JObj [("success", Js.JBool true);
                                       ("message", Js.JStr "File uploaded successfully");
                                       ("filename", Js.JStr "rtfFile-1761465600000-7.txt");
                                       ("originalName", Js.JStr "notes.txt");
                                       ("size", Js.JNum 12)]))]
  /\ events (serve (check_file Scenario.healthy (Scenario.named "rtfFile-1761465600000-7.txt"))
               (files (serve (upload Scenario.healthy Scenario.mislabelled) Scenario.disk)))
     = [Spawned EfChecker ["/srv/server/uploads/rtfFile-1761465600000-7.txt"];
        Closed EfChecker (Some 0);
        Responded 200 (BJson Scenario.discordant)].
Proof. repeat split; vm_compute; reflexivity. Qed.

(** C8, amended. An upload is rejected by the server when its media type
    is not [application/rtf] and the extension of its original name,
    lower-cased, is not [.rtf]: the answer is 500, nothing is stored,
    and no process is spawned, so neither extraction nor check runs. *)
Theorem upload_filter_rejects
  (env : Env) (req : UploadRequest) (file : UploadedFile) (fs : gset string) :
  part req = Some file ->
  mimetype file ≠ "application/rtf" ->
  Js.toLowerCase (Path.extname (originalname file)) ≠ ".rtf" ->
  let w := serve (upload env req) fs in
  files w = fs
  /\ events w = [Responded 500 (error_body "Internal server error")]
  /\ spawned (events w) = [].
Proof.
  intros Hpart Hmime Hext.
  unfold upload, single, fileFilter. unfold_handler. rewrite Hpart.
  destruct (String.eqb_spec (mimetype file) "application/rtf") as [|_]; [contradiction|].
  destruct (String.eqb_spec (Js.toLowerCase (Path.extname (originalname file))) ".rtf")
    as [|_]; [contradiction|].
  destruct (String.eqb (fieldname file) "rtfFile"); simpl; repeat split.
Qed.

(** A text file announced as text. *)
Lemma upload_filter_rejects_witness :
  events (serve (upload Scenario.healthy Scenario.oversize_text) Scenario.disk)
  = [Responded 500 (error_body "Internal server error")].
Proof.
  assert (Hmime : "text/plain" ≠ "application/rtf") by discriminate.
  assert (Hext : Js.toLowerCase (Path.extname "big.txt") ≠ ".rtf") by (vm_compute; discriminate).
  exact (proj1 (proj2 (upload_filter_rejects Scenario.healthy Scenario.oversize_text
                         {| fieldname := "rtfFile"; originalname := "big.txt";
                            mimetype := "text/plain"; size := 10 * 1024 * 1024 + 1 |}
                         Scenario.disk eq_refl Hmime Hext))).
Defined.

(** Before any request is sent, the client refuses a dropped file whose
    lower-cased name does not end in [.rtf]. *)
Lemma onDrop_refuses_other_names
  (env : Env) (file : Client.File) (others : list Client.File) (stamp : string)
  (fs : gset string) :
  Js.endsWith ".rtf" (Js.toLowerCase (Client.name file)) = false ->
  serve (Client.onDrop env (file :: others) stamp) fs
  = {| files := fs; events := [Reported "Please select an RTF file"] |}.
Proof. intros Hname. unfold Client.onDrop. rewrite Hname. reflexivity. Qed.

(** ** The size limit of an upload *)

(** C10, as stated, fails. The file filter is asked before the size is
    known: a text file of 10 MiB and one byte is refused by the filter,
    and the answer is 500 'Internal server error', not 400 'File too
    large'. *)
Lemma oversize_text_file_is_answered_500 :
  (fileSize <? 10 * 1024 * 1024 + 1) = true
  /\ response (events (serve (upload Scenario.healthy Scenario.oversize_text) Scenario.disk))
     = Some (500, BJson (Js.JObj [("error", Js.JStr "Internal server error")])).
Proof. split; vm_compute; reflexivity. Qed.

(** C10, amended. An upload in the field [rtfFile] that passes the file
    filter and is larger than 10 * 1024 * 1024 bytes is answered 400
    'File too large'; what was written of it is unlinked, so its
    destination does not exist afterwards, and no process is spawned. *)
Theorem oversize_upload_rejected
  (env : Env) (req : UploadRequest) (file : UploadedFile) (fs : gset string) :
  part req = Some file ->
  fieldname file = "rtfFile" ->
  mimetype file = "application/rtf"
    \/ Js.toLowerCase (Path.extname (originalname file)) = ".rtf" ->
  10 * 1024 * 1024 < size file ->
  let w := serve (upload env req) fs in
  response (events w) = Some (400, error_body "File too large")
  /\ (Path.join [uploadsDir env; storage_filename file (stamp req)] ∉ files w)
  /\ spawned (events w) = [].
Proof.
  intros Hpart Hfield Haccept Hsize.
  assert (Hfilter : (String.eqb (mimetype file) "application/rtf"
                     || String.eqb (Js.toLowerCase (Path.extname (originalname file))) ".rtf")%bool
                    = true).
  { apply orb_true_iff.
    destruct Haccept as [Hm|He]; [left|right]; apply String.eqb_eq; assumption. }
  assert (Hlimit : (fileSize <? size file) = true) by (apply Z.ltb_lt; exact Hsize).
  unfold upload, single, fileFilter, store, unlink. unfold_handler.
  rewrite Hpart, Hfield, Hfilter. simpl. rewrite Hlimit. simpl.
  split; [reflexivity|]. split; [| reflexivity].
  rewrite elem_of_difference, elem_of_singleton. tauto.
Qed.

(** A report of 10 MiB and one byte. *)
Lemma oversize_upload_rejected_witness :
  response (events (serve (upload Scenario.healthy Scenario.oversize_report) Scenario.disk))
  = Some (400, error_body "File too large")
  /\ "/srv/server/uploads/rtfFile-1761465600000-9.rtf"
     ∉ files (serve (upload Scenario.healthy Scenario.oversize_report) Scenario.disk).
Proof.
  assert (Haccept : "application/octet-stream" = "application/rtf"
                    \/ Js.toLowerCase (Path.extname "echo.rtf") = ".rtf")
    by (right; reflexivity).
  assert (Hsize : 10 * 1024 * 1024 < 10 * 1024 * 1024 + 1) by lia.
  pose proof (oversize_upload_rejected Scenario.healthy Scenario.oversize_report
                {| fieldname := "rtfFile"; originalname := "echo.rtf";
                   mimetype := "application/octet-stream"; size := 10 * 1024 * 1024 + 1 |}
                Scenario.disk eq_refl eq_refl Haccept Hsize) as (Hanswer & Hgone & _).
  split; [exact Hanswer | exact Hgone].
Defined.

(** ** The three rules of the evaluator *)

Import Evaluator.

(** C3. For every triple of extracted values: if one of them is Missing
    the status is Incomplete, whatever the other two are; if all three
    are numbers, the status is Good when they are equal and Discordant
    when they are not. *)
Theorem classify_rules (c b t : ExtractedValue) :
  (value c = Missing \/ value b = Missing \/ value t = Missing ->
     classify c b t = Incomplete)
  /\ (forall x y z : Z,
        value c = Percent x -> value b = Percent y -> value t = Percent z ->
        (x = y /\ y = z -> classify c b t = Good)
        /\ (~ (x = y /\ y = z) -> classify c b t = Discordant)).
Proof.
  unfold classify, is_missing, same. simpl. split.
  - intros [H | [H | H]]; rewrite H; simpl;
      repeat match goal with |- context [match value ?e with _ => _ end] =>
        destruct (value e) end; reflexivity.
  - intros x y z -> -> ->. simpl. split.
    + intros [-> ->]. now rewrite Z.eqb_refl.
    + intros Hne. destruct (Z.eqb_spec x y) as [->|]; simpl; [|reflexivity].
      destruct (Z.eqb_spec y z) as [->|]; [|reflexivity].
      exfalso. apply Hne. split; reflexivity.
Qed.

(** * Further properties of the handlers *)

(** ** Requests that are refused before anything happens *)

(** X1. A request without a usable [filename] (the property is missing,
    null, false, 0 or the empty string) is answered 400 'Filename is
    required' by check-file, generate-pdf and cleanup alike; nothing is
    spawned and the disk is left as it was. *)
Theorem missing_filename_is_refused
  (env : Env) (body : list (string * Js.Json)) (fs : gset string) :
  Js.truthy (Js.get "filename" body) = false ->
  let refusal := {| files := fs;
                    events := [Responded 400 (error_body "Filename is required")] |} in
  serve (check_file env body) fs = refusal
  /\ serve (generate_pdf env body) fs = refusal
  /\ serve (cleanup env body) fs = refusal.
Proof.
  intros Hfalsy. unfold check_file, generate_pdf, cleanup. unfold_handler.
  rewrite Hfalsy. simpl. repeat split.
Qed.

(** A body with no [filename] at all, sent to cleanup. *)
Lemma missing_filename_is_refused_witness :
  serve (cleanup Scenario.healthy []) Scenario.disk
  = {| files := Scenario.disk;
       events := [Responded 400 (error_body "Filename is required")] |}.
Proof.
  exact (proj2 (proj2 (missing_filename_is_refused Scenario.healthy [] Scenario.disk eq_refl))).
Defined.

(** X2. A [filename] that is truthy but not a string (a number, true, an
    array, an object) makes [path.join] throw; each handler catches the
    error and answers 500 with its own text, without touching the disk
    or spawning anything. *)
Theorem non_string_filename_is_caught
  (env : Env) (body : list (string * Js.Json)) (v : Js.Json) (fs : gset string) :
  Js.get "filename" body = Some v ->
  Js.truthy (Some v) = true ->
  (forall s, v ≠ Js.JStr s) ->
  serve (check_file env body) fs
  = {| files := fs; events := [Responded 500 (error_body "EF check failed")] |}
  /\ serve (generate_pdf env body) fs
     = {| files := fs; events := [Responded 500 (error_body "PDF generation failed")] |}
  /\ serve (cleanup env body) fs
     = {| files := fs; events := [Responded 500 (error_body "Cleanup failed")] |}.
Proof.
  intros Hget Htruthy Hshape. unfold check_file, generate_pdf, cleanup. unfold_handler.
  rewrite Hget, Htruthy. simpl.
  destruct v as [| | |s| |]; try (repeat split; fail).
  exfalso. exact (Hshape s eq_refl).
Qed.

(** The number 7 as a file name, sent to check-file. *)
Lemma non_string_filename_is_caught_witness :
  serve (check_file Scenario.healthy [("filename", Js.JNum 7)]) Scenario.disk
  = {| files := Scenario.disk; events := [Responded 500 (error_body "EF check failed")] |}.
Proof.
  assert (Hshape : forall s, Js.JNum 7 ≠ Js.JStr s) by (intros s; discriminate).
  exact (proj1 (non_string_filename_is_caught Scenario.healthy [("filename", Js.JNum 7)]
                  (Js.JNum 7) Scenario.disk eq_refl eq_refl Hshape)).
Defined.

(** X3. A file name that resolves to a path that does not exist is
    answered 404 'File not found' by check-file, generate-pdf and
    cleanup; no task is spawned and nothing on disk changes. *)
Theorem unknown_file_is_not_found
  (env : Env) (body : list (string * Js.Json)) (name : string) (fs : gset string) :
  Js.get "filename" body = Some (Js.JStr name) ->
  name ≠ "" ->
  Path.join [uploadsDir env; name] ∉ fs ->
  let refusal := {| files := fs; events := [Responded 404 (error_body "File not found")] |} in
  serve (check_file env body) fs = refusal
  /\ serve (generate_pdf env body) fs = refusal
  /\ serve (cleanup env body) fs = refusal.
Proof.
  intros Hget Hne Hout. unfold check_file, generate_pdf, cleanup. unfold_handler.
  rewrite Hget, (truthy_string name Hne). simpl.
  rewrite (bool_decide_eq_false_2 _ Hout). simpl. repeat split.
Qed.

(** A report that was never uploaded, sent to generate-pdf. *)
Lemma unknown_file_is_not_found_witness :
  serve (generate_pdf Scenario.healthy (Scenario.named "rtfFile-0-0.rtf")) Scenario.disk
  = {| files := Scenario.disk; events := [Responded 404 (error_body "File not found")] |}.
Proof.
  assert (Hne : "rtfFile-0-0.rtf" ≠ "") by discriminate.
  assert (Hout : Path.join [uploadsDir Scenario.healthy; "rtfFile-0-0.rtf"] ∉ Scenario.disk)
    by compute_done.
  exact (proj1 (proj2 (unknown_file_is_not_found Scenario.healthy
                         (Scenario.named "rtfFile-0-0.rtf") "rtfFile-0-0.rtf" Scenario.disk
                         eq_refl Hne Hout))).
Defined.

(** ** What every run does and never does *)

(** Case analysis on everything a handler branches on. *)
Ltac handler_cases :=
  repeat (simpl;
    match goal with
    | |- context [Js.truthy (Js.get ?k ?b)] => destruct (Js.truthy (Js.get k b)) eqn:?
    | |- context [match Js.get ?k ?b with _ => _ end] =>
        destruct (Js.get k b) as [[| | |?| |]|] eqn:?
    | |- context [bool_decide ?P] => destruct (bool_decide_reflect P)
    | |- context [run ?e ?s ?a ?f] => destruct (run e s a f) as [? [?|]] eqn:?
    | |- context [failed ?c] => destruct (failed c) eqn:?
    | |- context [JSON_parse ?e ?t] => destruct (JSON_parse e t) eqn:?
    | |- context [part ?r] => destruct (part r) as [?|] eqn:?
    | |- context [String.eqb ?a ?b] => destruct (String.eqb_spec a b)
    | |- context [Z.ltb ?a ?b] => destruct (Z.ltb_spec a b)
    end); simpl.

(** X4. No run answers twice. Check-file and generate-pdf answer at most
    once (not at all while a task has not closed); cleanup and upload
    answer exactly once, whatever the request. *)
Theorem handlers_answer_once
  (env : Env) (body : list (string * Js.Json)) (req : UploadRequest) (fs : gset string) :
  (Trace.answers (events (serve (check_file env body) fs)) <= 1)%nat
  /\ (Trace.answers (events (serve (generate_pdf env body) fs)) <= 1)%nat
  /\ Trace.answers (events (serve (cleanup env body) fs)) = 1%nat
  /\ Trace.answers (events (serve (upload env req) fs)) = 1%nat.
Proof.
  split; [|split; [|split]].
  - unfold check_file. unfold_handler. handler_cases; unfold Trace.answers; simpl; lia.
  - unfold generate_pdf. unfold_handler. handler_cases; unfold Trace.answers; simpl; lia.
  - unfold cleanup. unfold_handler. handler_cases; reflexivity.
  - unfold upload, single, fileFilter, upload_handler, error_middleware, store, unlink.
    unfold_handler. handler_cases; reflexivity.
Qed.


(** X6. Check-file spawns the checker and nothing else, at most once, and
    removes nothing itself: after a run the disk is as the request found
    it, or as the checker left it. *)
Theorem check_file_only_runs_the_checker
  (env : Env) (body : list (string * Js.Json)) (fs : gset string) :
  Trace.removed (events (serve (check_file env body) fs)) = []
  /\ ((spawned (events (serve (check_file env body) fs)) = []
       /\ files (serve (check_file env body) fs) = fs)
      \/ (exists name,
            Js.get "filename" body = Some (Js.JStr name)
            /\ spawned (events (serve (check_file env body) fs)) = [EfChecker]
            /\ files (serve (check_file env body) fs)
               = fst (run env EfChecker [Path.join [uploadsDir env; name]] fs))).
Proof.
  unfold check_file. unfold_handler.
  handler_cases; (split; [reflexivity|]);
    first [ left; split; reflexivity
          | right; eexists; split; [reflexivity|];
            split; [reflexivity|];
            match goal with H : run _ _ _ _ = _ |- _ => rewrite H end; reflexivity ].
Qed.

(** X7. When the checker exits with 0 and its output, white space at
    both ends trimmed, is JSON, check-file answers 200 with exactly that
    JSON value. *)
Theorem check_file_passes_report_through
  (env : Env) (body : list (string * Js.Json)) (name : string) (fs fs1 : gset string)
  (e : Exit) (result : Js.Json) :
  Js.get "filename" body = Some (Js.JStr name) ->
  name ≠ "" ->
  Path.join [uploadsDir env; name] ∈ fs ->
  run env EfChecker [Path.join [uploadsDir env; name]] fs = (fs1, Some e) ->
  code e = Some 0 ->
  JSON_parse env (Js.trim (stdout e)) = Some result ->
  response (events (serve (check_file env body) fs)) = Some (200, BJson result).
Proof.
  intros Hget Hne Hin Hrun Hcode Hparse.
  rewrite (check_file_closed env body name fs fs1 e Hget Hne Hin Hrun).
  unfold failed. rewrite Hcode, Hparse. reflexivity.
Qed.

(** The checker prints its report between blanks. *)
Lemma check_file_passes_report_through_witness :
  response (events (serve (check_file Scenario.healthy (Scenario.named Scenario.report))
                      Scenario.disk))
  = Some (200, BJson Scenario.discordant).
Proof.
  assert (Hne : Scenario.report ≠ "") by discriminate.
  assert (Hin : Path.join [uploadsDir Scenario.healthy; Scenario.report] ∈ Scenario.disk)
    by compute_done.
  exact (check_file_passes_report_through Scenario.healthy (Scenario.named Scenario.report)
           Scenario.report Scenario.disk Scenario.disk
           {| code := Some 0; stdout := " discordant-report "; stderr := "" |}
           Scenario.discordant eq_refl Hne Hin eq_refl eq_refl eq_refl).
Defined.

(** ** Generate runs that do not fail *)

(** X8. No task has a timeout. While the conversion, the PDF stage or
    the checker has not closed, the handler that spawned it has given no
    answer, and generate-pdf has not gone on to its next stage. *)
Theorem unclosed_task_gets_no_answer
  (env : Env) (body : list (string * Js.Json)) (name : string) (fs fs1 : gset string) :
  let rtf := Path.join [uploadsDir env; name] in
  let docx := Js.replace ".rtf" ".docx" rtf in
  let pdf := Js.replace ".docx" ".pdf" docx in
  Js.get "filename" body = Some (Js.JStr name) ->
  name ≠ "" ->
  rtf ∈ fs ->
  (run env EfChecker [rtf] fs = (fs1, None) ->
     events (serve (check_file env body) fs) = [Spawned EfChecker [rtf]])
  /\ (run env ConvertRtfToDocx [rtf; docx] fs = (fs1, None) ->
      events (serve (generate_pdf env body) fs) = [Spawned ConvertRtfToDocx [rtf; docx]])
  /\ (forall c fs2,
        run env ConvertRtfToDocx [rtf; docx] fs = (fs1, Some c) ->
        failed c = false ->
        run env GeneratePdf [docx; pdf] fs1 = (fs2, None) ->
        response (events (serve (generate_pdf env body) fs)) = None
        /\ spawned (events (serve (generate_pdf env body) fs))
           = [ConvertRtfToDocx; GeneratePdf]).
Proof.
  intros rtf docx pdf Hget Hne Hin.
  unfold check_file, generate_pdf. unfold_handler.
  rewrite Hget, (truthy_string name Hne). simpl.
  fold rtf. rewrite (bool_decide_eq_true_2 _ Hin). simpl. fold docx. fold pdf.
  split; [|split].
  - intros ->. reflexivity.
  - intros ->. reflexivity.
  - intros c fs2 -> ->. simpl. intros ->. split; reflexivity.
Qed.

(** A conversion that never closes. *)
Lemma unclosed_task_gets_no_answer_witness :
  events (serve (generate_pdf Fixture.hangs (Scenario.named Scenario.report)) Scenario.disk)
  = [Spawned ConvertRtfToDocx ["/srv/server/uploads/rtfFile-1761465600000-42.rtf";
                               "/srv/server/uploads/rtfFile-1761465600000-42.docx"]].
Proof.
  assert (Hne : Scenario.report ≠ "") by discriminate.
  assert (Hin : Path.join [uploadsDir Fixture.hangs; Scenario.report] ∈ Scenario.disk)
    by compute_done.
  exact (proj1 (proj2 (unclosed_task_gets_no_answer Fixture.hangs
                         (Scenario.named Scenario.report) Scenario.report Scenario.disk
                         Scenario.disk eq_refl Hne Hin)) eq_refl).
Defined.







(** ** Uploads *)

Ltac unfold_upload :=
  unfold upload, single, fileFilter, upload_handler, error_middleware, store, unlink;
  unfold_handler.

(** X11. An upload triggers no processing: no task is spawned, whatever
    the request; and no path other than the destination of the uploaded
    part is created or removed. *)
Theorem upload_touches_only_its_destination
  (env : Env) (req : UploadRequest) (fs : gset string) :
  spawned (events (serve (upload env req) fs)) = []
  /\ forall q,
       (forall file, part req = Some file ->
          q ≠ Path.join [uploadsDir env; storage_filename file (stamp req)]) ->
       (q ∈ files (serve (upload env req) fs) <-> q ∈ fs).
Proof.
  unfold_upload.
  handler_cases; (split; [reflexivity|]); intros q Hq;
    try specialize (Hq _ eq_refl);
    rewrite ?elem_of_difference, ?elem_of_union, ?elem_of_singleton; tauto.
Qed.

(** X12. A part in the field [rtfFile] that the filter accepts and that
    is smaller than the limit is written to the uploads directory under
    [rtfFile-<stamp><extension of the original name>], and the answer is
    200 with that name, the original name and the size. *)
Theorem accepted_upload_is_stored
  (env : Env) (req : UploadRequest) (file : UploadedFile) (fs : gset string) :
  let name := fieldname file +:+ "-" +:+ stamp req +:+ Path.extname (originalname file) in
  let dest := Path.join [uploadsDir env; name] in
  part req = Some file ->
  fieldname file = "rtfFile" ->
  mimetype file = "application/rtf"
    \/ Js.toLowerCase (Path.extname (originalname file)) = ".rtf" ->
  size file < 10 * 1024 * 1024 ->
  serve (upload env req) fs
  = {| files := {[dest]} ∪ fs;
       events := [Stored dest;
                  Responded 200 (BJson (Js.JObj
                    [("success", Js.JBool true);
                     ("message", Js.JStr "File uploaded successfully");
                     ("filename", Js.JStr name);
                     ("originalName", Js.JStr (originalname file));
                     ("size", Js.JNum (size file))]))] |}.
Proof.
  intros name dest Hpart Hfield Haccept Hsize.
  assert (Hfilter : (String.eqb (mimetype file) "application/rtf"
                     || String.eqb (Js.toLowerCase (Path.extname (originalname file))) ".rtf")%bool
                    = true).
  { apply orb_true_iff.
    destruct Haccept as [Hm|He]; [left|right]; apply String.eqb_eq; assumption. }
  assert (Hlimit : (fileSize <? size file) = false)
    by (apply Z.ltb_ge; unfold fileSize; lia).
  subst dest name. unfold_upload. unfold storage_filename.
  rewrite Hpart, Hfield, Hfilter. simpl. rewrite Hlimit. reflexivity.
Qed.

(** A report of 52000 bytes. *)
Lemma accepted_upload_is_stored_witness :
  files (serve (upload Scenario.healthy Fixture.small_upload) Scenario.disk)
  = {["/srv/server/uploads/rtfFile-1761465600000-11.rtf"]} ∪ Scenario.disk.
Proof.
  assert (Haccept : mimetype Fixture.small_report = "application/rtf"
                    \/ Js.toLowerCase (Path.extname (originalname Fixture.small_report)) = ".rtf")
    by (right; reflexivity).
  assert (Hsize : size Fixture.small_report < 10 * 1024 * 1024) by (simpl; lia).
  exact (f_equal files (accepted_upload_is_stored Scenario.healthy Fixture.small_upload
                          Fixture.small_report Scenario.disk eq_refl eq_refl Haccept Hsize)).
Defined.

(** X13. A request with no file part is answered 400 'No file uploaded'.
    A part in any field other than [rtfFile] is refused by multer with
    LIMIT_UNEXPECTED_FILE, which the error middleware does not tell from
    any other error: the answer is 500 'Internal server error'. Neither
    stores anything. *)
Theorem upload_without_usable_part
  (env : Env) (req : UploadRequest) (fs : gset string) :
  (part req = None ->
     serve (upload env req) fs
     = {| files := fs; events := [Responded 400 (error_body "No file uploaded")] |})
  /\ (forall file, part req = Some file -> fieldname file ≠ "rtfFile" ->
        serve (upload env req) fs
        = {| files := fs; events := [Responded 500 (error_body "Internal server error")] |}).
Proof.
  unfold_upload. split.
  - intros ->. reflexivity.
  - intros file -> Hfield.
    destruct (String.eqb_spec (fieldname file) "rtfFile"); [contradiction | reflexivity].
Qed.

(** X14. What upload stores, the other handlers find under the name the
    answer gave: a check-file for that name reaches the checker with the
    stored path, a cleanup for it answers success and removes the file,
    and a check-file after that is answered 404. *)
Theorem uploaded_name_is_found_until_cleaned
  (env : Env) (req : UploadRequest) (file : UploadedFile) (fs : gset string) :
  let name := storage_filename file (stamp req) in
  let dest := Path.join [uploadsDir env; name] in
  let body := [("filename", Js.JStr name)] in
  let uploaded := files (serve (upload env req) fs) in
  let cleaned := serve (cleanup env body) uploaded in
  part req = Some file ->
  fieldname file = "rtfFile" ->
  mimetype file = "application/rtf"
    \/ Js.toLowerCase (Path.extname (originalname file)) = ".rtf" ->
  size file < 10 * 1024 * 1024 ->
  (exists rest, events (serve (check_file env body) uploaded)
                = Spawned EfChecker [dest] :: rest)
  /\ response (events cleaned)
     = Some (200, BJson (Js.JObj [("success", Js.JBool true);
                                  ("message", Js.JStr "File cleaned up successfully")]))
  /\ (dest ∉ files cleaned)
  /\ serve (check_file env body) (files cleaned)
     = {| files := files cleaned; events := [Responded 404 (error_body "File not found")] |}.
Proof.
  intros name dest body uploaded cleaned Hpart Hfield Haccept Hsize.
  assert (Hne : name ≠ "").
  { subst name. unfold storage_filename. rewrite Hfield. discriminate. }
  assert (Hget : Js.get "filename" body = Some (Js.JStr name)) by reflexivity.
  assert (Hup : uploaded = {[dest]} ∪ fs).
  { assert (Hfilter : (String.eqb (mimetype file) "application/rtf"
                       || String.eqb (Js.toLowerCase (Path.extname (originalname file)))
                            ".rtf")%bool = true).
    { apply orb_true_iff.
      destruct Haccept as [Hm|He]; [left|right]; apply String.eqb_eq; assumption. }
    assert (Hlimit : (fileSize <? size file) = false)
      by (apply Z.ltb_ge; unfold fileSize; lia).
    subst uploaded dest name. unfold_upload.
    rewrite Hpart, Hfield, Hfilter. simpl. rewrite Hlimit. reflexivity. }
  assert (Hin : dest ∈ uploaded) by (rewrite Hup; apply elem_of_union_l, elem_of_singleton;
                                     reflexivity).
  assert (Hcleaned : cleaned = {| files := without dest uploaded;
                                  events := [Removed dest;
                                             Responded 200 (BJson (Js.JObj
                                               [("success", Js.JBool true);
                                                ("message", Js.JStr "File cleaned up successfully")]))] |}).
  { subst cleaned. unfold cleanup. unfold_handler.
    rewrite Hget, (truthy_string name Hne). simpl. fold dest.
    rewrite (bool_decide_eq_true_2 _ Hin). reflexivity. }
  split; [|split; [|split]].
  - unfold check_file. unfold_handler.
    rewrite Hget, (truthy_string name Hne). simpl. fold dest.
    rewrite (bool_decide_eq_true_2 _ Hin). simpl.
    destruct (run env EfChecker [dest] uploaded) as [fs1 [e|]]; simpl.
    + destruct (failed e); simpl; [eexists; reflexivity|].
      destruct (JSON_parse env (Js.trim (stdout e))); eexists; reflexivity.
    + eexists. reflexivity.
  - rewrite Hcleaned. reflexivity.
  - rewrite Hcleaned. apply removed_is_gone.
  - assert (Hgone : Path.join [uploadsDir env; name] ∉ files cleaned)
      by (rewrite Hcleaned; apply removed_is_gone).
    unfold check_file. unfold_handler.
    rewrite Hget, (truthy_string name Hne). simpl.
    rewrite (bool_decide_eq_false_2 _ Hgone). reflexivity.
Qed.

(** The small report, uploaded, checked, cleaned and checked again. *)
Lemma uploaded_name_is_found_until_cleaned_witness :
  serve (check_file Scenario.healthy [("filename", Js.JStr "rtfFile-1761465600000-11.rtf")])
    (files (serve (cleanup Scenario.healthy
                     [("filename", Js.JStr "rtfFile-1761465600000-11.rtf")])
              (files (serve (upload Scenario.healthy Fixture.small_upload) Scenario.disk))))
  = {| files := files (serve (cleanup Scenario.healthy
                                [("filename", Js.JStr "rtfFile-1761465600000-11.rtf")])
                         (files (serve (upload Scenario.healthy Fixture.small_upload)
                                   Scenario.disk)));
       events := [Responded 404 (error_body "File not found")] |}.
Proof.
  assert (Haccept : mimetype Fixture.small_report = "application/rtf"
                    \/ Js.toLowerCase (Path.extname (originalname Fixture.small_report)) = ".rtf")
    by (right; reflexivity).
  assert (Hsize : size Fixture.small_report < 10 * 1024 * 1024) by (simpl; lia).
  exact (proj2 (proj2 (proj2
    (uploaded_name_is_found_until_cleaned Scenario.healthy Fixture.small_upload
       Fixture.small_report Scenario.disk eq_refl eq_refl Haccept Hsize)))).
Defined.

(** ** Paths built from plain names *)

Lemma append_cons (ch : ascii) (a b : string) : String ch a +:+ b = String ch (a +:+ b).
Proof. reflexivity. Qed.

Lemma append_empty (b : string) : "" +:+ b = b.
Proof. reflexivity. Qed.

Lemma append_assoc (a b c : string) : (a +:+ b) +:+ c = a +:+ (b +:+ c).
Proof.
  induction a as [|ch a IH]; [reflexivity|]. rewrite !append_cons. now rewrite IH.
Qed.

Lemma prefix_append (a b : string) : String.prefix a (a +:+ b) = true.
Proof.
  induction a as [|ch a IH]; [now destruct b|]. rewrite append_cons. simpl.
  destruct (ascii_dec ch ch); [exact IH | contradiction].
Qed.


Lemma has_slash_append (a b : string) :
  Names.has_slash (a +:+ b) = (Names.has_slash a || Names.has_slash b)%bool.
Proof.
  induction a as [|ch a IH]; [reflexivity|]. rewrite append_cons. simpl.
  rewrite IH. apply orb_assoc.
Qed.

Lemma has_slash_drop (n : nat) (s : string) :
  Names.has_slash s = false -> Names.has_slash (Js.drop n s) = false.
Proof.
  revert s. induction n as [|n IH]; intros s Hs; simpl; [exact Hs|].
  destruct s as [|ch s]; [reflexivity|]. simpl in Hs.
  apply orb_false_iff in Hs as [_ Hs]. exact (IH s Hs).
Qed.

Lemma split_not_nil (s : string) : Path.split s ≠ [].
Proof.
  destruct s as [|ch s]; simpl; [discriminate|].
  destruct (Ascii.eqb ch Path.slash); [discriminate|].
  destruct (Path.split s); discriminate.
Qed.

Lemma split_plain (s : string) : Names.has_slash s = false -> Path.split s = [s].
Proof.
  induction s as [|ch s IH]; simpl; [reflexivity|]. intros H.
  apply orb_false_iff in H as [Hch Hs]. rewrite Hch, (IH Hs). reflexivity.
Qed.

Lemma split_append_slash (a b : string) :
  Path.split (a +:+ String Path.slash b) = (Path.split a ++ Path.split b)%list.
Proof.
  induction a as [|ch a IH].
  - rewrite append_empty. reflexivity.
  - rewrite append_cons. simpl.
    rewrite IH. destruct (Ascii.eqb ch Path.slash); [reflexivity|].
    pose proof (split_not_nil a) as Hne.
    destruct (Path.split a) as [|seg segs]; [contradiction | reflexivity].
Qed.

Lemma split_segments_plain (s : string) :
  Forall (fun seg => Names.has_slash seg = false) (Path.split s).
Proof.
  induction s as [|ch s IH]; simpl; [repeat constructor|].
  destruct (Ascii.eqb ch Path.slash) eqn:Hch; [constructor; [reflexivity | exact IH]|].
  destruct (Path.split s) as [|seg segs]; [repeat constructor; simpl; now rewrite Hch|].
  inversion IH as [|? ? Hseg Hsegs]; subst.
  constructor; [simpl; now rewrite Hch, Hseg | exact Hsegs].
Qed.


Lemma resolve_append (above : bool) (xs ys st : list string) :
  Path.resolve above st (xs ++ ys)
  = Path.resolve above (rev (Path.resolve above st xs)) ys.
Proof.
  revert st. induction xs as [|seg xs IH]; intros st; simpl.
  - now rewrite rev_involutive.
  - destruct (String.eqb seg "" || String.eqb seg ".")%bool; [apply IH|].
    destruct (String.eqb seg ".."); [|apply IH].
    destruct st as [|top below]; [destruct above; apply IH|].
    destruct (String.eqb top ".."); apply IH.
Qed.

Lemma resolve_keeps (P : string -> Prop) (above : bool) (segs st : list string) :
  Forall P st -> Forall P segs -> Forall P (Path.resolve above st segs).
Proof.
  revert st. induction segs as [|seg segs IH]; intros st Hst Hsegs; simpl.
  - apply Forall_rev. exact Hst.
  - inversion Hsegs as [|? ? Hseg Hrest]; subst.
    destruct (String.eqb seg "" || String.eqb seg ".")%bool; [now apply IH|].
    destruct (String.eqb_spec seg "..") as [->|_].
    + destruct st as [|top below].
      * destruct above; apply IH; auto.
      * inversion Hst; subst.
        destruct (String.eqb top ".."); apply IH; auto.
    + apply IH; auto.
Qed.

Lemma resolve_kept (segs st : list string) :
  Forall Names.kept st -> Forall Names.kept (Path.resolve false st segs).
Proof.
  revert st. induction segs as [|seg segs IH]; intros st Hst; simpl.
  - apply Forall_rev. exact Hst.
  - destruct (String.eqb_spec seg "") as [->|Hne]; simpl; [now apply IH|].
    destruct (String.eqb_spec seg ".") as [->|Hdot]; simpl; [now apply IH|].
    destruct (String.eqb_spec seg "..") as [->|Hup].
    + destruct st as [|top below]; [now apply IH|].
      inversion Hst as [|? ? Htop Hbelow]; subst.
      destruct (String.eqb_spec top "..") as [->|_]; [|now apply IH].
      exfalso. destruct Htop as (_ & _ & Htop). now apply Htop.
    + apply IH. constructor; [repeat split; assumption | exact Hst].
Qed.

Lemma resolve_of_kept (above : bool) (segs st : list string) :
  Forall Names.kept segs -> Path.resolve above st segs = (rev st ++ segs)%list.
Proof.
  revert st. induction segs as [|seg segs IH]; intros st Hsegs; simpl.
  - now rewrite app_nil_r.
  - inversion Hsegs as [|? ? (Hne & Hdot & Hup) Hrest]; subst.
    destruct (String.eqb_spec seg ""); [contradiction|].
    destruct (String.eqb_spec seg "."); [contradiction|].
    destruct (String.eqb_spec seg ".."); [contradiction|]. simpl.
    rewrite (IH _ Hrest). simpl. now rewrite <- app_assoc.
Qed.

Lemma concat_with_cons (sep seg : string) (rest : list string) :
  rest ≠ [] ->
  Path.concat_with sep (seg :: rest) = seg +:+ sep +:+ Path.concat_with sep rest.
Proof. destruct rest; [contradiction | reflexivity]. Qed.

Lemma concat_with_snoc (sep x : string) (segs : list string) :
  segs ≠ [] ->
  Path.concat_with sep (segs ++ [x]) = Path.concat_with sep segs +:+ sep +:+ x.
Proof.
  induction segs as [|seg segs IH]; [contradiction|]. intros _.
  destruct segs as [|seg' segs]; [reflexivity|].
  change ((seg :: seg' :: segs) ++ [x])%list with (seg :: ((seg' :: segs) ++ [x]))%list.
  rewrite concat_with_cons by (simpl; discriminate).
  rewrite IH by discriminate.
  rewrite (concat_with_cons sep seg (seg' :: segs)) by discriminate.
  now rewrite !append_assoc.
Qed.

Lemma split_concat (segs : list string) :
  segs ≠ [] ->
  Forall (fun seg => Names.has_slash seg = false) segs ->
  Path.split (Path.concat_with "/" segs) = segs.
Proof.
  induction segs as [|seg segs IH]; [contradiction|]. intros _ Hall.
  inversion Hall as [|? ? Hseg Hrest]; subst.
  destruct segs as [|seg' segs]; [exact (split_plain seg Hseg)|].
  rewrite concat_with_cons by discriminate.
  change ("/" +:+ Path.concat_with "/" (seg' :: segs))
    with (String Path.slash (Path.concat_with "/" (seg' :: segs))).
  rewrite split_append_slash, (split_plain seg Hseg), IH by (auto; discriminate).
  reflexivity.
Qed.

Lemma concat_with_not_empty (sep seg : string) (rest : list string) :
  seg ≠ "" -> Path.concat_with sep (seg :: rest) ≠ "".
Proof.
  intros Hseg. destruct seg as [|ch seg]; [contradiction|].
  destruct rest; simpl; [discriminate|]. rewrite append_cons. discriminate.
Qed.

Lemma endsWith_slash_cons (ch : ascii) (s : string) :
  s ≠ "" -> Js.endsWith "/" (String ch s) = Js.endsWith "/" s.
Proof.
  intros Hs. destruct s as [|c2 s]; [contradiction|]. unfold Js.endsWith. simpl.
  rewrite Nat.sub_0_r. reflexivity.
Qed.

Lemma endsWith_slash_append (a b : string) :
  b ≠ "" -> Js.endsWith "/" (a +:+ b) = Js.endsWith "/" b.
Proof.
  intros Hb. induction a as [|ch a IH]; [reflexivity|].
  rewrite append_cons, endsWith_slash_cons; [exact IH|].
  destruct a; [rewrite append_empty; exact Hb | rewrite append_cons; discriminate].
Qed.

Lemma endsWith_slash_plain (s : string) :
  Names.has_slash s = false -> Js.endsWith "/" s = false.
Proof.
  induction s as [|ch s IH]; [reflexivity|]. simpl. intros H.
  apply orb_false_iff in H as [Hch Hs].
  destruct s as [|c2 s].
  - unfold Js.endsWith. simpl. unfold Path.slash in Hch. rewrite Hch. reflexivity.
  - rewrite endsWith_slash_cons by discriminate. exact (IH Hs).
Qed.

Lemma isAbsolute_cons (ch : ascii) (a b : string) :
  Path.isAbsolute (String ch a) = true -> Path.isAbsolute (String ch b) = true.
Proof.
  unfold Path.isAbsolute. cbn [String.prefix].
  destruct (ascii_dec "/"%char ch); [intros _; now destruct b | intros H; discriminate H].
Qed.

Lemma isAbsolute_slash (s : string) : Path.isAbsolute (String Path.slash s) = true.
Proof.
  unfold Path.isAbsolute, Path.slash. cbn [String.prefix].
  destruct (ascii_dec "/"%char "/"%char); [now destruct s | contradiction].
Qed.

(** The shape of a normalized absolute path without a trailing slash. *)
Lemma normalize_absolute (p : string) :
  Path.isAbsolute p = true ->
  Js.endsWith "/" p = false ->
  Path.resolve false [] (Path.split p) ≠ [] ->
  Forall Names.kept (Path.resolve false [] (Path.split p)) ->
  Path.normalize p = "/" +:+ Path.concat_with "/" (Path.resolve false [] (Path.split p)).
Proof.
  intros Habs Htrail Hne Hkept. unfold Path.normalize.
  destruct (String.eqb_spec p "") as [->|_]; [cbv in Habs; discriminate|].
  rewrite Habs, Htrail. simpl.
  destruct (Path.resolve false [] (Path.split p)) as [|seg segs]; [contradiction|].
  inversion Hkept as [|? ? (Hseg & _) _]; subst.
  destruct (String.eqb_spec (Path.concat_with "/" (seg :: segs)) "") as [Hempty|_];
    [|reflexivity].
  exfalso. exact (concat_with_not_empty "/" seg segs Hseg Hempty).
Qed.

Lemma plain_kept (name : string) : Names.plain name = true -> Names.kept name.
Proof.
  unfold Names.plain, Names.kept. rewrite !andb_true_iff, !negb_true_iff.
  intros [[[_ H1] H2] H3]. repeat split; intros ->; discriminate.
Qed.

Lemma plain_no_slash (name : string) : Names.plain name = true -> Names.has_slash name = false.
Proof.
  unfold Names.plain. rewrite !andb_true_iff, !negb_true_iff. tauto.
Qed.

(** The uploads directory of an installation with an absolute [__dirname]:
    the kept segments of [__dirname], then [uploads]. *)
Lemma uploadsDir_shape (env : Env) :
  Path.isAbsolute (dirname env) = true ->
  exists segs,
    Forall Names.kept segs
    /\ Forall (fun seg => Names.has_slash seg = false) segs
    /\ uploadsDir env = "/" +:+ Path.concat_with "/" (segs ++ ["uploads"]).
Proof.
  intros Habs. unfold uploadsDir, Path.join.
  destruct (dirname env) as [|ch d] eqn:Hd; [discriminate|].
  cbn [filter String.eqb negb]. 
  set (p := Path.concat_with "/" [String ch d; "uploads"]).
  assert (Hp : p = String ch d +:+ String Path.slash "uploads") by reflexivity.
  assert (Hsplit : Path.split p = (Path.split (String ch d) ++ ["uploads"])%list).
  { rewrite Hp, split_append_slash. reflexivity. }
  set (R := Path.resolve false [] (Path.split (String ch d))).
  assert (HR : Path.resolve false [] (Path.split p) = (R ++ ["uploads"])%list).
  { rewrite Hsplit, resolve_append. fold R. simpl. now rewrite rev_involutive. }
  assert (HRkept : Forall Names.kept R) by (apply resolve_kept; constructor).
  assert (HRplain : Forall (fun seg => Names.has_slash seg = false) R).
  { apply resolve_keeps; [constructor | apply split_segments_plain]. }
  exists R. split; [exact HRkept|]. split; [exact HRplain|].
  rewrite <- HR. apply normalize_absolute.
  - rewrite Hp, append_cons. exact (isAbsolute_cons _ _ _ Habs).
  - rewrite Hp. rewrite endsWith_slash_append by discriminate. reflexivity.
  - rewrite HR. destruct R; discriminate.
  - rewrite HR. apply Forall_app. split; [exact HRkept|].
    constructor; [|constructor]. repeat split; discriminate.
Qed.

(** A plain name joined to the uploads directory names an entry of that
    directory. *)
Lemma join_plain_name (env : Env) (name : string) :
  Path.isAbsolute (dirname env) = true ->
  Names.plain name = true ->
  Path.join [uploadsDir env; name] = uploadsDir env +:+ "/" +:+ name.
Proof.
  intros Habs Hplain.
  destruct (uploadsDir_shape env Habs) as (R & HRkept & HRplain & HU).
  pose proof (plain_kept name Hplain) as Hkept.
  pose proof (plain_no_slash name Hplain) as Hslash.
  set (B := Path.concat_with "/" (R ++ ["uploads"])) in *.
  assert (HallK : Forall Names.kept ((R ++ ["uploads"]) ++ [name])).
  { repeat (apply Forall_app; split); auto.
    constructor; [|constructor]. repeat split; discriminate. }
  assert (HallP : Forall (fun seg => Names.has_slash seg = false) (R ++ ["uploads"])).
  { apply Forall_app; split; auto. }
  assert (Hname : name ≠ "") by (destruct Hkept; assumption).
  unfold Path.join. rewrite HU.
  destruct name as [|c0 name0] eqn:Hn; [contradiction|]. rewrite <- Hn in *.
  cbn [filter String.eqb negb]. rewrite append_cons, append_empty.
  replace (filter _ [String "/" B; name]) with [String "/" B; name]
    by (rewrite Hn; reflexivity).
  set (p := Path.concat_with "/" [String "/" B; name]).
  assert (Hp : p = String Path.slash (B +:+ String Path.slash name)) by reflexivity.
  assert (Hsplit : Path.split p = ("" :: (R ++ ["uploads"]) ++ [name])%list).
  { rewrite Hp. change (String Path.slash (B +:+ String Path.slash name))
      with ("" +:+ String Path.slash (B +:+ String Path.slash name)).
    rewrite split_append_slash, split_append_slash.
    unfold B. rewrite split_concat by (auto; destruct R; discriminate).
    rewrite (split_plain name Hslash). reflexivity. }
  assert (Hres : Path.resolve false [] (Path.split p) = ((R ++ ["uploads"]) ++ [name])%list).
  { rewrite Hsplit. simpl. exact (resolve_of_kept false _ [] HallK). }
  rewrite normalize_absolute.
  - rewrite Hres, concat_with_snoc by (destruct R; discriminate).
    fold B. rewrite append_cons, append_empty. reflexivity.
  - rewrite Hp. apply isAbsolute_slash.
  - rewrite Hp, endsWith_slash_cons.
    + rewrite endsWith_slash_append by discriminate.
      rewrite endsWith_slash_cons by exact Hname.
      exact (endsWith_slash_plain name Hslash).
    + destruct B; [rewrite append_empty | rewrite append_cons]; discriminate.
  - rewrite Hres. destruct R; discriminate.
  - rewrite Hres. exact HallK.
Qed.

Lemma within_child (dir name : string) : Path.within dir (dir +:+ "/" +:+ name) = true.
Proof.
  unfold Path.within. rewrite <- append_assoc, prefix_append. apply orb_true_r.
Qed.


Lemma basename_no_slash (p : string) : Names.has_slash (Path.basename p) = false.
Proof.
  unfold Path.basename.
  pose proof (split_segments_plain p) as Hall. apply Forall_rev in Hall.
  induction Hall as [|seg segs Hseg _ IH]; [reflexivity|].
  rewrite filter_cons. destruct (decide _); [exact Hseg | exact IH].
Qed.

Lemma extname_no_slash (p : string) : Names.has_slash (Path.extname p) = false.
Proof.
  unfold Path.extname. destruct (Path.last_dot (Path.basename p)) as [[|i]|]; try reflexivity.
  destruct (String.eqb (Path.basename p) ".."); [reflexivity|].
  apply has_slash_drop, basename_no_slash.
Qed.

Lemma storage_filename_plain (file : UploadedFile) (stamp : string) :
  fieldname file = "rtfFile" ->
  Names.has_slash stamp = false ->
  Names.plain (storage_filename file stamp) = true.
Proof.
  intros Hfield Hstamp. unfold storage_filename, Names.plain. rewrite Hfield.
  rewrite !has_slash_append, Hstamp, extname_no_slash. reflexivity.
Qed.



(** X16. With an absolute [__dirname] and a stamp without [/] (it is made
    of digits and a dash), whatever an upload adds to the disk lies
    within the uploads directory, whatever the original name of the
    file. *)
Theorem upload_stores_inside_uploads
  (env : Env) (req : UploadRequest) (fs : gset string) :
  Path.isAbsolute (dirname env) = true ->
  Names.has_slash (stamp req) = false ->
  forall q, q ∈ files (serve (upload env req) fs) -> q ∉ fs ->
    Path.within (uploadsDir env) q = true.
Proof.
  intros Habs Hstamp q. unfold_upload.
  handler_cases; intros Hq Hnew; try contradiction;
    rewrite ?elem_of_difference, ?elem_of_union, ?elem_of_singleton in Hq;
    try tauto;
    (assert (Hdest : q = Path.join [uploadsDir env; storage_filename u (stamp req)])
       by tauto);
    rewrite Hdest, (join_plain_name env _ Habs (storage_filename_plain u _ e Hstamp));
    apply within_child.
Qed.

(** The small report lands in the uploads directory. *)
Lemma upload_stores_inside_uploads_witness :
  Path.within (uploadsDir Scenario.healthy)
    "/srv/server/uploads/rtfFile-1761465600000-11.rtf" = true.
Proof.
  assert (Hin : "/srv/server/uploads/rtfFile-1761465600000-11.rtf"
                ∈ files (serve (upload Scenario.healthy Fixture.small_upload) Scenario.disk))
    by compute_done.
  assert (Hnew : "/srv/server/uploads/rtfFile-1761465600000-11.rtf" ∉ Scenario.disk)
    by compute_done.
  exact (upload_stores_inside_uploads Scenario.healthy Fixture.small_upload Scenario.disk
           eq_refl eq_refl _ Hin Hnew).
Defined.

(** ** The client and the server together *)

Ltac unfold_click :=
  unfold Browser.click, Browser.handleCleanup, Browser.handleVerify, Browser.post.

(** X17. The Clean Up button reloads the page exactly when the file was
    there: then the server has removed it. In every other case (no file
    name, or a file that is gone, as on a second click) the server's
    refusal makes the client show its failure alert, and the disk is as
    it was. *)
Theorem cleanup_click_reloads_only_for_existing_file
  (env : Env) (filename : string) (fs : gset string) :
  let path := Path.join [uploadsDir env; filename] in
  (filename ≠ "" -> path ∈ fs ->
     Browser.click (Browser.handleCleanup env filename) fs
     = (Done true,
        {| files := without path fs;
           events := [Removed path;
                      Responded 200 (BJson (Js.JObj
                        [("success", Js.JBool true);
                         ("message", Js.JStr "File cleaned up successfully")]))] |}))
  /\ (filename = "" \/ path ∉ fs ->
      exists status text,
        Browser.click (Browser.handleCleanup env filename) fs
        = (Done false,
           {| files := fs;
              events := [Responded status (error_body text);
                         Alerted "Failed to clean up files. Please try again."] |})).
Proof.
  intros path. unfold_click. unfold cleanup. unfold_handler. cbn [Js.get String.eqb Ascii.eqb
    Bool.eqb files events]. fold path. split.
  - intros Hne Hin. rewrite (truthy_string filename Hne). simpl.
    rewrite (bool_decide_eq_true_2 _ Hin). reflexivity.
  - intros Hbad. destruct (String.eqb_spec filename "") as [->|Hne].
    + exists 400, "Filename is required". reflexivity.
    + destruct Hbad as [Hempty|Hout]; [contradiction|].
      rewrite (truthy_string filename Hne). simpl.
      rewrite (bool_decide_eq_false_2 _ Hout).
      exists 404, "File not found". reflexivity.
Qed.

(** X18. What Run EF Consistency Check tells the user when it fails.
    Without a file name nothing is sent. For a file that is not there
    the message is the server's 'File not found'. When the checker does
    not exit with 0 the message is 'Verification failed: EF check
    failed': the [details] the server returned are not shown. *)
Theorem verify_click_reports_the_error_text
  (env : Env) (filename : option string) (fs : gset string) :
  (filename = None \/ filename = Some "" ->
     Browser.click (Browser.handleVerify env filename) fs
     = (Done None, {| files := fs; events := [Reported "No file to verify"] |}))
  /\ (forall name, filename = Some name -> name ≠ "" ->
        Path.join [uploadsDir env; name] ∉ fs ->
        Browser.click (Browser.handleVerify env filename) fs
        = (Done None,
           {| files := fs;
              events := [Responded 404 (error_body "File not found");
                         Reported "Verification failed: File not found"] |}))
  /\ (forall name fs1 e, filename = Some name -> name ≠ "" ->
        Path.join [uploadsDir env; name] ∈ fs ->
        run env EfChecker [Path.join [uploadsDir env; name]] fs = (fs1, Some e) ->
        failed e = true ->
        Browser.click (Browser.handleVerify env filename) fs
        = (Done None,
           {| files := fs1;
              events := [Spawned EfChecker [Path.join [uploadsDir env; name]];
                         Closed EfChecker (code e);
                         Responded 500 (BJson (Js.JObj
                           [("error", Js.JStr "EF check failed");
                            ("details", Js.JStr (stderr e))]));
                         Reported "Verification failed: EF check failed"] |})).
Proof.
  split; [|split].
  - intros [->| ->]; reflexivity.
  - intros name -> Hne Hout. destruct name as [|ch name]; [contradiction|].
    unfold_click. unfold check_file. unfold_handler.
    cbn [Js.get String.eqb Ascii.eqb Bool.eqb files events].
    rewrite (truthy_string _ Hne). simpl.
    rewrite (bool_decide_eq_false_2 _ Hout). reflexivity.
  - intros name fs1 e -> Hne Hin Hrun Hfailed. destruct name as [|ch name]; [contradiction|].
    unfold_click. unfold check_file. unfold_handler.
    cbn [Js.get String.eqb Ascii.eqb Bool.eqb files events].
    rewrite (truthy_string _ Hne). simpl.
    rewrite (bool_decide_eq_true_2 _ Hin). simpl. rewrite Hrun. simpl.
    rewrite Hfailed. reflexivity.
Qed.

(** X19. When the checker exits with 0 and prints JSON, Run EF
    Consistency Check hands that JSON value to the page, unless the
    value is falsy (null, false, 0, the empty string): then the user is
    told 'No results received from server'. *)
Theorem verify_click_hands_over_the_report
  (env : Env) (name : string) (fs fs1 : gset string) (e : Exit) (result : Js.Json) :
  name ≠ "" ->
  Path.join [uploadsDir env; name] ∈ fs ->
  run env EfChecker [Path.join [uploadsDir env; name]] fs = (fs1, Some e) ->
  code e = Some 0 ->
  JSON_parse env (Js.trim (stdout e)) = Some result ->
  (Js.truthy (Some result) = true ->
     fst (Browser.click (Browser.handleVerify env (Some name)) fs) = Done (Some (BJson result)))
  /\ (Js.truthy (Some result) = false ->
      fst (Browser.click (Browser.handleVerify env (Some name)) fs) = Done None
      /\ In (Reported "No results received from server")
            (events (snd (Browser.click (Browser.handleVerify env (Some name)) fs)))).
Proof.
  intros Hne Hin Hrun Hcode Hparse. destruct name as [|ch name]; [contradiction|].
  unfold_click. unfold check_file. unfold_handler. unfold failed.
  cbn [Js.get String.eqb Ascii.eqb Bool.eqb files events].
  rewrite (truthy_string _ Hne). simpl.
  rewrite (bool_decide_eq_true_2 _ Hin). simpl. rewrite Hrun. simpl.
  rewrite Hcode, Hparse. simpl. unfold Browser.present. split.
  - intros ->. reflexivity.
  - intros ->. simpl. split; [reflexivity|]. right. right. right. left. reflexivity.
Qed.

(** The stored report, whose check prints the discordant report. *)
Lemma verify_click_hands_over_the_report_witness :
  fst (Browser.click (Browser.handleVerify Scenario.healthy (Some Scenario.report))
         Scenario.disk)
  = Done (Some (BJson Scenario.discordant)).
Proof.
  assert (Hne : Scenario.report ≠ "") by discriminate.
  assert (Hin : Path.join [uploadsDir Scenario.healthy; Scenario.report] ∈ Scenario.disk)
    by compute_done.
  exact (proj1 (verify_click_hands_over_the_report Scenario.healthy Scenario.report
                  Scenario.disk Scenario.disk
                  {| code := Some 0; stdout := " discordant-report "; stderr := "" |}
                  Scenario.discordant Hne Hin eq_refl eq_refl eq_refl) eq_refl).
Defined.

(** ** What the client lets through and what the server accepts *)

Lemma toLowerCase_length (s : string) : String.length (Js.toLowerCase s) = String.length s.
Proof. induction s as [|ch s IH]; simpl; [reflexivity | now rewrite IH]. Qed.

Lemma toLowerCase_drop (k : nat) (s : string) :
  Js.drop k (Js.toLowerCase s) = Js.toLowerCase (Js.drop k s).
Proof.
  revert s. induction k as [|k IH]; intros s; [reflexivity|].
  destruct s as [|ch s]; [reflexivity | apply IH].
Qed.

Lemma lower_char_dot (c : ascii) : Js.lower_char c = Path.dot -> c = Path.dot.
Proof.
  destruct c as [[|] [|] [|] [|] [|] [|] [|] [|]]; vm_compute; intros H;
    first [reflexivity | discriminate H].
Qed.

Lemma lower_char_not_dot (c x : ascii) : Js.lower_char c = x -> x ≠ Path.dot -> c ≠ Path.dot.
Proof. intros <- Hx ->. apply Hx. reflexivity. Qed.

Lemma last_dot_drop (k : nat) (s t : string) :
  Js.drop k s = t -> Path.last_dot t = Some O -> Path.last_dot s = Some k.
Proof.
  revert s. induction k as [|k IH]; intros s Hdrop Ht; simpl in Hdrop.
  - now subst.
  - destruct s as [|ch s]; [subst; discriminate|].
    simpl. now rewrite (IH s Hdrop Ht).
Qed.

Lemma basename_plain (s : string) :
  Names.has_slash s = false -> s ≠ "" -> Path.basename s = s.
Proof.
  intros Hs Hne. unfold Path.basename. rewrite (split_plain s Hs). simpl.
  rewrite filter_cons, filter_nil.
  destruct (decide _) as [|Hno]; [reflexivity|].
  exfalso. apply Hno. destruct (String.eqb_spec s ""); [contradiction | exact I].
Qed.

(** The last four characters of a name the client lets through. *)
Lemma rtf_suffix (name : string) :
  Js.endsWith ".rtf" (Js.toLowerCase name) = true ->
  exists c1 c2 c3,
    Js.drop (String.length name - 4) name
    = String Path.dot (String c1 (String c2 (String c3 "")))
    /\ c1 ≠ Path.dot /\ c2 ≠ Path.dot /\ c3 ≠ Path.dot
    /\ Js.toLowerCase (Js.drop (String.length name - 4) name) = ".rtf".
Proof.
  unfold Js.endsWith. rewrite toLowerCase_length, toLowerCase_drop.
  cbn [String.length]. intros H. apply andb_true_iff in H as [_ H].
  apply String.eqb_eq in H.
  destruct (Js.drop (String.length name - 4) name) as [|c0 [|c1 [|c2 [|c3 [|c4 t]]]]];
    try discriminate H.
  injection H as H0 H1 H2 H3.
  apply lower_char_dot in H0. subst c0.
  exists c1, c2, c3. split; [reflexivity|].
  split; [|split; [|split]];
    try (eapply lower_char_not_dot; [eassumption | discriminate]).
  change (String (Js.lower_char Path.dot)
            (String (Js.lower_char c1) (String (Js.lower_char c2)
               (String (Js.lower_char c3) ""))) = ".rtf").
  now rewrite H1, H2, H3.
Qed.

Lemma last_dot_suffix (c1 c2 c3 : ascii) :
  c1 ≠ Path.dot -> c2 ≠ Path.dot -> c3 ≠ Path.dot ->
  Path.last_dot (String Path.dot (String c1 (String c2 (String c3 "")))) = Some O.
Proof.
  intros H1 H2 H3. simpl.
  destruct (Ascii.eqb_spec c3 Path.dot); [contradiction|].
  destruct (Ascii.eqb_spec c2 Path.dot); [contradiction|].
  destruct (Ascii.eqb_spec c1 Path.dot); [contradiction|]. reflexivity.
Qed.

Lemma drop_length (k : nat) (s : string) :
  String.length (Js.drop k s) = (String.length s - k)%nat.
Proof.
  revert s. induction k as [|k IH]; intros s; simpl; [lia|].
  destruct s as [|ch s]; simpl; [reflexivity | apply IH].
Qed.

(** The server's test on the extension agrees with the client's test on
    the name as soon as something precedes the extension. *)
Lemma extname_of_rtf_name (name : string) :
  Names.has_slash name = false ->
  Js.endsWith ".rtf" (Js.toLowerCase name) = true ->
  (4 < String.length name)%nat ->
  Path.extname name = Js.drop (String.length name - 4) name
  /\ Js.toLowerCase (Path.extname name) = ".rtf".
Proof.
  intros Hslash Hends Hlen.
  destruct (rtf_suffix name Hends) as (c1 & c2 & c3 & Hdrop & H1 & H2 & H3 & Hlow).
  assert (Hne : name ≠ "") by (intros ->; simpl in Hlen; lia).
  assert (Hext : Path.extname name = Js.drop (String.length name - 4) name).
  { unfold Path.extname. rewrite (basename_plain name Hslash Hne).
    rewrite (last_dot_drop _ name _ Hdrop (last_dot_suffix c1 c2 c3 H1 H2 H3)).
    destruct (String.length name - 4)%nat as [|k] eqn:Hk; [lia|].
    destruct (String.eqb_spec name "..") as [->|_]; [simpl in Hlen; lia | reflexivity]. }
  split; [exact Hext | now rewrite Hext].
Qed.

(** X20. What the client lets through, the server accepts. A dropped
    file whose name has something before an extension that is [.rtf] in
    any capitals, and that is smaller than the limit, is sent, stored
    under [rtfFile-<stamp>] followed by that extension as it came, and
    answered 200, whatever media type the browser gave it. *)
Theorem dropped_report_is_stored
  (env : Env) (file : Client.File) (others : list Client.File) (stamp : string)
  (fs : gset string) :
  let ext := Js.drop (String.length (Client.name file) - 4) (Client.name file) in
  let dest := Path.join [uploadsDir env; "rtfFile-" +:+ stamp +:+ ext] in
  Names.has_slash (Client.name file) = false ->
  Js.endsWith ".rtf" (Js.toLowerCase (Client.name file)) = true ->
  (4 < String.length (Client.name file))%nat ->
  Client.bytes file < 10 * 1024 * 1024 ->
  serve (Client.onDrop env (file :: others) stamp) fs
  = {| files := {[dest]} ∪ fs;
       events := [Stored dest;
                  Responded 200 (BJson (Js.JObj
                    [("success", Js.JBool true);
                     ("message", Js.JStr "File uploaded successfully");
                     ("filename", Js.JStr ("rtfFile-" +:+ stamp +:+ ext));
                     ("originalName", Js.JStr (Client.name file));
                     ("size", Js.JNum (Client.bytes file))]))] |}.
Proof.
  intros ext dest Hslash Hends Hlen Hsize.
  destruct (extname_of_rtf_name _ Hslash Hends Hlen) as [Hext Hlow].
  assert (Hclient : (10 * 1024 * 1024 <? Client.bytes file) = false) by (apply Z.ltb_ge; lia).
  assert (Hlimit : (fileSize <? Client.bytes file) = false)
    by (apply Z.ltb_ge; unfold fileSize; lia).
  unfold Client.onDrop. rewrite Hends, Hclient. cbn [negb].
  unfold_upload. unfold storage_filename.
  cbn [part fieldname originalname mimetype size Server.stamp String.eqb Ascii.eqb Bool.eqb negb].
  rewrite Hlow, String.eqb_refl, orb_true_r. simpl. rewrite Hlimit, Hext. reflexivity.
Qed.

(** A report exported in capitals, announced as a binary file. *)
Lemma dropped_report_is_stored_witness :
  files (serve (Client.onDrop Scenario.healthy
                  [{| Client.name := "ECHO 2025.RTF"; Client.type := "application/octet-stream";
                      Client.bytes := 52000 |}] "1761465600000-13") Scenario.disk)
  = {["/srv/server/uploads/rtfFile-1761465600000-13.RTF"]} ∪ Scenario.disk.
Proof.
  assert (Hlen : (4 < String.length "ECHO 2025.RTF")%nat) by (simpl; lia).
  assert (Hsize : 52000 < 10 * 1024 * 1024) by lia.
  exact (f_equal files
           (dropped_report_is_stored Scenario.healthy
              {| Client.name := "ECHO 2025.RTF"; Client.type := "application/octet-stream";
                 Client.bytes := 52000 |} [] "1761465600000-13" Scenario.disk
              eq_refl eq_refl Hlen Hsize)).
Defined.

(** X21. The two tests differ on a name that is nothing but the
    extension. A file called [.rtf], in any capitals, passes the client;
    the server sees a name without extension and, unless the browser
    announced it as [application/rtf], refuses it with 500: nothing is
    stored. *)
Theorem dropped_bare_extension_is_refused
  (env : Env) (file : Client.File) (others : list Client.File) (stamp : string)
  (fs : gset string) :
  Js.toLowerCase (Client.name file) = ".rtf" ->
  Client.type file ≠ "application/rtf" ->
  Client.bytes file <= 10 * 1024 * 1024 ->
  serve (Client.onDrop env (file :: others) stamp) fs
  = {| files := fs; events := [Responded 500 (error_body "Internal server error")] |}.
Proof.
  intros Hname Htype Hsize.
  assert (Hclient : (10 * 1024 * 1024 <? Client.bytes file) = false) by (apply Z.ltb_ge; lia).
  assert (Hext : Path.extname (Client.name file) = "").
  { destruct (Client.name file) as [|c0 [|c1 [|c2 [|c3 [|c4 t]]]]]; try discriminate Hname.
    injection Hname as H0 H1 H2 H3.
    apply lower_char_dot in H0. subst c0.
    assert (Hslash : Names.has_slash (String Path.dot (String c1 (String c2 (String c3 ""))))
                     = false).
    { cbn [Names.has_slash].
      destruct (Ascii.eqb_spec c1 Path.slash) as [->|]; [discriminate H1|].
      destruct (Ascii.eqb_spec c2 Path.slash) as [->|]; [discriminate H2|].
      destruct (Ascii.eqb_spec c3 Path.slash) as [->|]; [discriminate H3|]. reflexivity. }
    unfold Path.extname. rewrite (basename_plain _ Hslash) by discriminate.
    rewrite last_dot_suffix;
      [reflexivity | | | ]; eapply lower_char_not_dot; try eassumption; discriminate. }
  unfold Client.onDrop. rewrite Hname, Hclient. cbn [Js.endsWith negb].
  replace (Js.endsWith ".rtf" ".rtf") with true by reflexivity. cbn [negb].
  unfold_upload.
  cbn [part fieldname originalname mimetype size Server.stamp String.eqb Ascii.eqb Bool.eqb negb].
  rewrite Hext.
  destruct (String.eqb_spec (Client.type file) "application/rtf"); [contradiction|].
  reflexivity.
Qed.

(** A file called [.RTF]. *)
Lemma dropped_bare_extension_is_refused_witness :
  serve (Client.onDrop Scenario.healthy
           [{| Client.name := ".RTF"; Client.type := ""; Client.bytes := 52000 |}]
           "1761465600000-14") Scenario.disk
  = {| files := Scenario.disk;
       events := [Responded 500 (error_body "Internal server error")] |}.
Proof.
  assert (Htype : "" ≠ "application/rtf") by discriminate.
  assert (Hsize : 52000 <= 10 * 1024 * 1024) by lia.
  exact (dropped_bare_extension_is_refused Scenario.healthy
           {| Client.name := ".RTF"; Client.type := ""; Client.bytes := 52000 |} []
           "1761465600000-14" Scenario.disk eq_refl Htype Hsize).
Defined.
